(** * chat-memory: token estimation, budget splitting and three-tier
      memory orchestration

    A shallow embedding of [token-estimation.ts], [memory-split.ts] and
    [three-tier-memory-manager.ts], followed by the properties of the
    budget splitter and of the summarization workflow.

    Conventions of the embedding.
    - A JavaScript string is a [string]; [.length] is [String.length].
    - Token counts, context sizes and markers are integers ([Z]); the
      characters-per-token ratio is a rational ([Q]) and
      [Math.ceil(a / b)] is [Qceiling] of the exact quotient. The code
      divides in double precision: its quotient is the exact one
      rounded, so that at a ratio that is not an integer the estimate of
      the code can differ by one from the estimate here (123 characters
      at 4.1: 31 in the code, 30 here), and a ratio that is not a number
      is not a value of [Q]. What is proved below of the splitter and of
      the orchestrator uses of an estimate only that it is an integer,
      not negative, fixed by the content and the ratio.
    - An optional field ([x?: T]) is an [option T]; a value used as a
      condition is tested with the helpers [truthy_string],
      [truthy_opt_string].
    - Arrays are lists, [a[i]] is stdpp's [a !! i], [a.slice(s, e)] is
      [slice s e a].
    - A collaborator (storage, summarizer) is an arbitrary function of
      its arguments and of the state of the outside world that resolves,
      rejects or throws; what it does to the world happens at the call.
      An [async] method of the manager is a function from that state to
      a completion, a new state and the list of events it emitted.
    - The logger only records lines. *)

From Stdlib Require Import ZArith QArith Qround.
From stdpp Require Import base option list strings gmap.

Local Open Scope Z_scope.

(* ================================================================== *)
(** ** Data model ([types.ts]) *)
(* ================================================================== *)

Inductive MessageRole := system | user | assistant | tool.

Inductive ContentPartType := text_part | image_url_part.

Record ContentPart := {
  type : ContentPartType;
  text : option string;
  image_url : option string
}.

Module ToolCall.
Record t := {
  id : string;
  name : string;
  arguments : string
}.
End ToolCall.

(** [content: string | ContentPart[]] *)
Inductive MessageContent :=
| ContentString (s : string)
| ContentParts (parts : list ContentPart).

Record Message := {
  role : MessageRole;
  content : MessageContent;
  name : option string;
  toolCallId : option string;
  toolCalls : option (list ToolCall.t)
}.

(** The object literal [{ role: 'user', content: s }]. *)
Definition userMessage (s : string) : Message :=
  {| role := user; content := ContentString s;
     name := None; toolCallId := None; toolCalls := None |}.

Record TokenBudgetConfig := {
  contextWindow : Z;
  maxOutputTokens : Z;
  systemMessage : option string;
  newUserMessage : option string;
  charsPerToken : option Q;
  safetyMargin : option Z
}.

(** [ThreeTierConfig extends TokenBudgetConfig] *)
Record ThreeTierConfig := {
  budgetConfig :> TokenBudgetConfig;
  maxSummaryBudgetTokens : Z
}.

Record ThreeTierSplitResult := {
  firstPair : list Message;
  droppedMessages : list Message;
  recentMessages : list Message;
  processedThroughIndex : Z;
  wasTruncated : bool
}.

(** Truthiness of a string: only the empty string is falsy. *)
Definition truthy_string (s : string) : bool :=
  negb (Nat.eqb (String.length s) 0).

(** Truthiness of an optional string: [undefined] and [""] are falsy. *)
Definition truthy_opt_string (o : option string) : bool :=
  match o with
  | Some s => truthy_string s
  | None => false
  end.

(** [a.slice(start, end)] for [0 <= start]; empty when [end <= start]. *)
Definition slice {A} (start stop : nat) (a : list A) : list A :=
  take (stop - start)%nat (drop start a).

(* ================================================================== *)
(** ** Token estimator ([token-estimation.ts]) *)
(* ================================================================== *)

Module TokenEstimationUtil.

Definition DEFAULT_CHARS_PER_TOKEN_ESTIMATE : Q := 4%Q.

(** [Math.ceil(n / charsPerToken)] for a character count [n], on the
    exact quotient (the code rounds the quotient to a double first). *)
Definition ceil_div (n : nat) (cpt : Q) : Z :=
  Qceiling (Qdiv (inject_Z (Z.of_nat n)) cpt).

Definition estimateStringTokens
    (text : string) (charsPerToken : option Q) : Z :=
  let charsPerToken := default DEFAULT_CHARS_PER_TOKEN_ESTIMATE charsPerToken in
  if negb (truthy_string text) || Qle_bool charsPerToken 0%Q
  then 0
  else ceil_div (String.length text) charsPerToken.

(** One iteration of the loop over the parts of a multimodal content. *)
Definition addPartChars (totalChars : nat) (part : ContentPart) : nat :=
  match type part, text part with
  | text_part, Some t =>
      if truthy_string t then (totalChars + String.length t)%nat
      else totalChars
  | _, _ => totalChars
  end.

Definition estimateContentTokens
    (content : MessageContent) (charsPerToken : option Q) : Z :=
  match content with
  | ContentString s => estimateStringTokens s charsPerToken
  | ContentParts parts =>
      let cpt := default DEFAULT_CHARS_PER_TOKEN_ESTIMATE charsPerToken in
      if Qle_bool cpt 0%Q then 0
      else
        let totalChars := fold_left addPartChars parts 0%nat in
        ceil_div totalChars cpt
  end.

Definition estimateTotalTokens
    (input : string) (messages : option (list Message))
    (systemMessage : option string) (charsPerToken : option Q) : Z :=
  let tokens := estimateStringTokens input charsPerToken in
  let tokens :=
    match messages with
    | Some msgs =>
        fold_left
          (fun acc msg => acc + estimateContentTokens (content msg) charsPerToken)
          msgs tokens
    | None => tokens
    end in
  match systemMessage with
  | Some s =>
      if truthy_string s then tokens + estimateStringTokens s charsPerToken
      else tokens
  | None => tokens
  end.

End TokenEstimationUtil.

(* ================================================================== *)
(** ** Budget splitter ([memory-split.ts]) *)
(* ================================================================== *)

Module MemorySplitUtil.
Import TokenEstimationUtil.

Definition MIN_MESSAGES_FOR_FIRST_PAIR : nat := 2.

Definition DEFAULT_SAFETY_MARGIN : Z := 200.

Definition calculateHistoryBudget (config : TokenBudgetConfig) : Z :=
  let margin := default DEFAULT_SAFETY_MARGIN (safetyMargin config) in
  let budget := contextWindow config - maxOutputTokens config - margin in
  let budget :=
    match systemMessage config with
    | Some s =>
        if truthy_string s
        then budget - estimateStringTokens s (charsPerToken config)
        else budget
    | None => budget
    end in
  let budget :=
    match newUserMessage config with
    | Some s =>
        if truthy_string s
        then budget - estimateStringTokens s (charsPerToken config)
        else budget
    | None => budget
    end in
  budget.

(** The backward loop shared by both splitting functions:

    [for (let i = messages.length - 1; i >= lo; i--) {
       msgTokens = estimate(messages[i]);
       if (used + msgTokens > budget) break;
       used += msgTokens; kept.push(messages[i]); }]

    [n] counts the indices still to visit, the current one being
    [i = lo + n - 1]; the result is [kept] as the loop leaves it
    (newest first). *)
Fixpoint walkBackward (messages : list Message) (cpt : option Q)
    (budget : Z) (lo n : nat) (usedTokens : Z) (kept : list Message)
    : list Message :=
  match n with
  | O => kept
  | S n' =>
      match messages !! (lo + n')%nat with
      | Some m =>
          let msgTokens := estimateContentTokens (content m) cpt in
          if usedTokens + msgTokens >? budget then kept
          else walkBackward messages cpt budget lo n'
                 (usedTokens + msgTokens) (kept ++ [m])
      | None => kept (* not reached: i < messages.length *)
      end
  end.

Definition truncateToTokenBudget
    (messages : list Message) (config : TokenBudgetConfig) : list Message :=
  if Nat.eqb (length messages) 0 then []
  else
    let budget := calculateHistoryBudget config in
    if budget <=? 0 then []
    else
      let kept :=
        walkBackward messages (charsPerToken config) budget
          0 (length messages) 0 [] in
      reverse kept.

(** [let t = 0; for (const msg of messages) t += estimate(msg.content)] *)
Definition sumTokens (messages : list Message) (cpt : option Q) : Z :=
  fold_left (fun acc msg => acc + estimateContentTokens (content msg) cpt)
    messages 0.

Definition noTruncation (messages : list Message) : ThreeTierSplitResult :=
  {| firstPair := [];
     droppedMessages := [];
     recentMessages := messages;
     processedThroughIndex := Z.max (Z.of_nat (length messages) - 1) 0;
     wasTruncated := false |}.

(** The result returned on both fallback signals. *)
Definition notApplicable (messages : list Message) : ThreeTierSplitResult :=
  {| firstPair := [];
     droppedMessages := messages;
     recentMessages := [];
     processedThroughIndex := Z.of_nat (length messages) - 1;
     wasTruncated := true |}.

Definition splitForThreeTierMemory
    (messages : list Message) (config : ThreeTierConfig)
    : ThreeTierSplitResult :=
  if (length messages <? MIN_MESSAGES_FOR_FIRST_PAIR)%nat
  then noTruncation messages
  else
    let cpt := charsPerToken config in
    let totalBudget := calculateHistoryBudget config in
    if totalBudget <=? 0 then notApplicable messages
    else
      match messages !! 0%nat, messages !! 1%nat with
      | Some m0, Some m1 =>
          let firstPairTokens :=
            estimateContentTokens (content m0) cpt
            + estimateContentTokens (content m1) cpt in
          if firstPairTokens >=? totalBudget then notApplicable messages
          else
            let allMessagesTokens := sumTokens messages cpt in
            if allMessagesTokens <=? totalBudget then noTruncation messages
            else
              let firstPair := slice 0 MIN_MESSAGES_FOR_FIRST_PAIR messages in
              let recentBudget :=
                totalBudget - firstPairTokens - maxSummaryBudgetTokens config in
              let recentMessages :=
                if recentBudget >? 0
                then reverse
                       (walkBackward messages cpt recentBudget
                          MIN_MESSAGES_FOR_FIRST_PAIR
                          (length messages - MIN_MESSAGES_FOR_FIRST_PAIR)
                          0 [])
                else [] in
              let recentStartIndex :=
                (length messages - length recentMessages)%nat in
              let droppedMessages :=
                slice MIN_MESSAGES_FOR_FIRST_PAIR recentStartIndex messages in
              {| firstPair := firstPair;
                 droppedMessages := droppedMessages;
                 recentMessages := recentMessages;
                 processedThroughIndex := Z.of_nat (length messages) - 1;
                 wasTruncated := true |}
      | _, _ => noTruncation messages (* not reached: length >= 2 *)
      end.

End MemorySplitUtil.

(* ================================================================== *)
(** ** Storage and manager data ([types.ts]) *)
(* ================================================================== *)

Module MemoryContext.
Record t := {
  entityType : string;
  entityId : string;
  modelKey : option string
}.
End MemoryContext.

Module MemorySummaryRecord.
Record t := {
  id : string;
  entityType : string;
  entityId : string;
  modelKey : option string;
  summary : string;
  summarizedThroughIndex : Z;
  createdAt : string;
  updatedAt : string
}.
End MemorySummaryRecord.

Module UpsertSummaryData.
Record t := {
  entityType : string;
  entityId : string;
  modelKey : option string;
  summary : string;
  summarizedThroughIndex : Z
}.
End UpsertSummaryData.

Module BuildHistoryInput.
Record t (Payload : Type) := {
  allHistory : list Message;
  contextWindow : Z;
  maxOutputTokens : Z;
  systemMessage : option string;
  newUserMessage : option string;
  summarizationContext : option Payload
}.
Arguments allHistory {Payload}.
Arguments contextWindow {Payload}.
Arguments maxOutputTokens {Payload}.
Arguments systemMessage {Payload}.
Arguments newUserMessage {Payload}.
Arguments summarizationContext {Payload}.
End BuildHistoryInput.

(* ================================================================== *)
(** ** Collaborators and the effects of a call *)
(* ================================================================== *)

(** How a call to a collaborator ends: its promise resolves, its promise
    rejects, or the call throws before returning a promise. *)
Inductive Outcome (Err A : Type) :=
| Resolved (a : A)
| Rejected (e : Err)
| Thrown (e : Err).
Arguments Resolved {Err A}.
Arguments Rejected {Err A}.
Arguments Thrown {Err A}.

(** What a call of the manager does to the outside, in order: each call
    to a collaborator with its arguments and its outcome, and each line
    sent to the logger. *)
Inductive Event (Payload Err : Type) :=
| EvGetSummary (entityType entityId : string) (modelKey : option string)
    (outcome : Outcome Err (option MemorySummaryRecord.t))
| EvSummarize (messagesText : string) (existingSummary : option string)
    (context : option Payload) (outcome : Outcome Err (option string))
| EvUpsertSummary (data : UpsertSummaryData.t) (outcome : Outcome Err unit)
| EvDeleteSummariesByEntity (entityType entityId : string)
    (outcome : Outcome Err unit)
| EvLogDebug
| EvLogWarn.
Arguments EvGetSummary {Payload Err}.
Arguments EvSummarize {Payload Err}.
Arguments EvUpsertSummary {Payload Err}.
Arguments EvDeleteSummariesByEntity {Payload Err}.
Arguments EvLogDebug {Payload Err}.
Arguments EvLogWarn {Payload Err}.

Definition isStorageCall {Payload Err} (ev : Event Payload Err) : bool :=
  match ev with
  | EvGetSummary _ _ _ _ | EvUpsertSummary _ _
  | EvDeleteSummariesByEntity _ _ _ => true
  | _ => false
  end.

Definition isEngineCall {Payload Err} (ev : Event Payload Err) : bool :=
  match ev with
  | EvSummarize _ _ _ _ => true
  | _ => false
  end.

Definition isUpsert {Payload Err} (ev : Event Payload Err) : bool :=
  match ev with
  | EvUpsertSummary _ _ => true
  | _ => false
  end.

(** The calls to the storage and to the summarizer among the events. *)
Definition collaboratorCalls {Payload Err} (evs : list (Event Payload Err))
    : list (Event Payload Err) :=
  List.filter (fun ev => isStorageCall ev || isEngineCall ev) evs.

Definition engineCalls {Payload Err} (evs : list (Event Payload Err))
    : list (Event Payload Err) :=
  List.filter isEngineCall evs.

Definition upsertCalls {Payload Err} (evs : list (Event Payload Err))
    : list (Event Payload Err) :=
  List.filter isUpsert evs.

(** [adapters.ts], [MemoryStorageAdapter]: [getSummary(entityType,
    entityId, modelKey): Promise<MemorySummaryRecord | null>],
    [upsertSummary(data): Promise<void>] and
    [deleteSummariesByEntity(entityType, entityId): Promise<void>]. An
    implementation is any function of the arguments and of the state of
    the outside world; the promise it returns resolves or rejects, or
    the call throws before returning one. *)
Record MemoryStorageAdapter (World Err : Type) := {
  getSummary : string -> string -> option string ->
    World -> Outcome Err (option MemorySummaryRecord.t) * World;
  upsertSummary : UpsertSummaryData.t -> World -> Outcome Err unit * World;
  deleteSummariesByEntity : string -> string ->
    World -> Outcome Err unit * World
}.
Arguments getSummary {World Err}.
Arguments upsertSummary {World Err}.
Arguments deleteSummariesByEntity {World Err}.

(** [adapters.ts], [SummarizerAdapter]: [summarize(messagesText,
    existingSummary, context?): Promise<string | null>]. *)
Record SummarizerAdapter (World Payload Err : Type) := {
  summarize : string -> option string -> option Payload ->
    World -> Outcome Err (option string) * World
}.
Arguments summarize {World Payload Err}.

(* ================================================================== *)
(** ** Asynchronous computations of the manager *)
(* ================================================================== *)

(** An [async] method is a function of the outside world that returns
    or raises, leaves a new world and emits events. *)
Inductive Completion (Err A : Type) :=
| Returned (a : A)
| Raised (e : Err).
Arguments Returned {Err A}.
Arguments Raised {Err A}.

Definition Async (World Payload Err A : Type) : Type :=
  World -> Completion Err A * World * list (Event Payload Err).

Section AsyncOps.
Context {World Payload Err : Type}.
Local Abbreviation M := (Async World Payload Err).

Definition ret {A} (a : A) : M A := fun w => (Returned a, w, []).

Definition bind {A B} (m : M A) (k : A -> M B) : M B :=
  fun w =>
    match m w with
    | (Returned a, w1, evs1) =>
        match k a w1 with
        | (r, w2, evs2) => (r, w2, evs1 ++ evs2)
        end
    | (Raised e, w1, evs1) => (Raised e, w1, evs1)
    end.

(** [try { body } catch (error) { handler }] *)
Definition try_catch {A} (body : M A) (handler : Err -> M A) : M A :=
  fun w =>
    match body w with
    | (Returned a, w1, evs1) => (Returned a, w1, evs1)
    | (Raised e, w1, evs1) =>
        match handler e w1 with
        | (r, w2, evs2) => (r, w2, evs1 ++ evs2)
        end
    end.

Definition emit (ev : Event Payload Err) : M unit :=
  fun w => (Returned tt, w, [ev]).

(** [await collaborator.method(args)]: a rejection and a throw both
    raise at the call site. *)
Definition await {A} (ev : Outcome Err A -> Event Payload Err)
    (call : World -> Outcome Err A * World) : M A :=
  fun w =>
    match call w with
    | (Resolved a, w1) => (Returned a, w1, [ev (Resolved a)])
    | (Rejected e, w1) => (Raised e, w1, [ev (Rejected e)])
    | (Thrown e, w1) => (Raised e, w1, [ev (Thrown e)])
    end.

(** [void collaborator.method(args).catch(onReject)]: the promise is
    not awaited, a rejection runs [onReject], and only a throw before
    the promise exists raises at the call site. *)
Definition fireAndForget (ev : Outcome Err unit -> Event Payload Err)
    (call : World -> Outcome Err unit * World)
    (onReject : Err -> M unit) : M unit :=
  fun w =>
    match call w with
    | (Resolved a, w1) => (Returned tt, w1, [ev (Resolved a)])
    | (Rejected e, w1) =>
        match onReject e w1 with
        | (_, w2, evs2) => (Returned tt, w2, ev (Rejected e) :: evs2)
        end
    | (Thrown e, w1) => (Raised e, w1, [ev (Thrown e)])
    end.
End AsyncOps.

Declare Scope async_scope.
Delimit Scope async_scope with async.
Notation "'let*' x ':=' m 'in' k" := (bind m (fun x => k))
  (at level 10, x name, m at level 100, k at level 200) : async_scope.

(* ================================================================== *)
(** ** Memory orchestrator ([three-tier-memory-manager.ts]) *)
(* ================================================================== *)

Module ThreeTierMemoryManager.
Import MemorySplitUtil.

Definition DEFAULT_MAX_SUMMARY_BUDGET_TOKENS : Z := 500.

(** The private fields of the class. [logger] tells whether a logger
    was configured; a logger only records lines and does not raise. *)
Module Self.
Record t (World Payload Err : Type) := {
  storage : option (MemoryStorageAdapter World Err);
  summarizer : option (SummarizerAdapter World Payload Err);
  summarizationEnabled : bool;
  maxSummaryBudgetTokens : Z;
  charsPerToken : option Q;
  logger : bool
}.
Arguments storage {World Payload Err}.
Arguments summarizer {World Payload Err}.
Arguments summarizationEnabled {World Payload Err}.
Arguments maxSummaryBudgetTokens {World Payload Err}.
Arguments charsPerToken {World Payload Err}.
Arguments logger {World Payload Err}.
End Self.

(** [ThreeTierMemoryManagerConfig], the [config] option of the
    constructor. *)
Module Config.
Record t := {
  summarizationEnabled : option bool;
  defaultMaxSummaryBudgetTokens : option Z;
  defaultCharsPerToken : option Q;
  logger : bool
}.
End Config.

(** The constructor: [options?.config?.x ?? default] for each field. *)
Definition new {World Payload Err : Type}
    (storage : option (MemoryStorageAdapter World Err))
    (summarizer : option (SummarizerAdapter World Payload Err))
    (config : option Config.t) : Self.t World Payload Err :=
  {| Self.storage := storage;
     Self.summarizer := summarizer;
     Self.summarizationEnabled :=
       default true (config ≫= Config.summarizationEnabled);
     Self.maxSummaryBudgetTokens :=
       default DEFAULT_MAX_SUMMARY_BUDGET_TOKENS
         (config ≫= Config.defaultMaxSummaryBudgetTokens);
     Self.charsPerToken := config ≫= Config.defaultCharsPerToken;
     Self.logger :=
       match config with
       | Some c => Config.logger c
       | None => false
       end |}.

(** [messages.push({ role: 'user', content: newUserMessage })] under
    [if (newUserMessage)]. *)
Definition pushNewUserMessage
    (messages : list Message) (newUserMessage : option string)
    : list Message :=
  match newUserMessage with
  | Some s => if truthy_string s then messages ++ [userMessage s] else messages
  | None => messages
  end.

Definition roleName (r : MessageRole) : string :=
  match r with
  | system => "system"
  | user => "user"
  | assistant => "assistant"
  | tool => "tool"
  end.

Definition newline : string := String (Ascii.ascii_of_nat 10) EmptyString.

(** [parts.join(sep)] *)
Fixpoint join (sep : string) (parts : list string) : string :=
  match parts with
  | [] => EmptyString
  | [p] => p
  | p :: rest => String.append p (String.append sep (join sep rest))
  end.

(** [`[Conversation Summary]\n${summary}`] wrapped as a user message. *)
Definition summaryMessageOf (summary : string) : Message :=
  userMessage
    (String.append "[Conversation Summary]" (String.append newline summary)).

(** The dropped messages not yet covered by the stored summary. *)
Definition newlyDropped (existingSummary : option MemorySummaryRecord.t)
    (droppedMessages : list Message) : list Message :=
  match existingSummary with
  | Some r =>
      if MemorySummaryRecord.summarizedThroughIndex r >? 1 then
        let alreadySummarizedInDropped :=
          MemorySummaryRecord.summarizedThroughIndex r - 1 in
        if alreadySummarizedInDropped <? Z.of_nat (length droppedMessages)
        then drop (Z.to_nat alreadySummarizedInDropped) droppedMessages
        else []
      else droppedMessages
  | None => droppedMessages
  end.

Section Methods.
Context {World Payload Err : Type}.

(** [JSON.stringify] on a multimodal content: a function of the
    JavaScript runtime, taken as given. *)
Variable JSON_stringify : list ContentPart -> string.

Local Abbreviation M := (Async World Payload Err).
Local Abbreviation Manager := (Self.t World Payload Err).
Local Open Scope async_scope.

(** [this.logger?.debug(...)], [this.logger?.warn(...)] *)
Definition logDebug (this : Manager) : M unit :=
  if Self.logger this then emit EvLogDebug else ret tt.

Definition logWarn (this : Manager) : M unit :=
  if Self.logger this then emit EvLogWarn else ret tt.

Definition splitMessages (this : Manager) (messages : list Message)
    (contextWindow maxOutputTokens : Z)
    (systemMessage newUserMessage : option string)
    : M ThreeTierSplitResult :=
  if (length messages <? MIN_MESSAGES_FOR_FIRST_PAIR)%nat
  then ret (noTruncation messages)
  else
    let threeTierConfig :=
      {| budgetConfig :=
           {| contextWindow := contextWindow;
              maxOutputTokens := maxOutputTokens;
              systemMessage := systemMessage;
              newUserMessage := newUserMessage;
              charsPerToken := Self.charsPerToken this;
              safetyMargin := None |};
         maxSummaryBudgetTokens := Self.maxSummaryBudgetTokens this |} in
    let result := splitForThreeTierMemory messages threeTierConfig in
    let* _u := (if wasTruncated result then logDebug this else ret tt) in
    ret result.

Definition truncateMessages (this : Manager) (messages : list Message)
    (contextWindow maxOutputTokens : Z)
    (systemMessage newUserMessage : option string)
    : M (list Message) :=
  if Nat.eqb (length messages) 0 then ret messages
  else
    let config :=
      {| contextWindow := contextWindow;
         maxOutputTokens := maxOutputTokens;
         systemMessage := systemMessage;
         newUserMessage := newUserMessage;
         charsPerToken := Self.charsPerToken this;
         safetyMargin := None |} in
    let truncated := truncateToTokenBudget messages config in
    let* _u :=
      (if (length truncated <? length messages)%nat
       then logDebug this else ret tt) in
    ret truncated.

(** [`${m.role}: ${typeof m.content === 'string' ? m.content
    : JSON.stringify(m.content)}`] *)
Definition renderMessage (m : Message) : string :=
  String.append (roleName (role m))
    (String.append ": "
       match content m with
       | ContentString s => s
       | ContentParts parts => JSON_stringify parts
       end).

Definition buildSummaryMessage (this : Manager)
    (droppedMessages : list Message) (context : MemoryContext.t)
    (summarizationContext : option Payload) : M (option Message) :=
  if Nat.eqb (length droppedMessages) 0
     || negb (Self.summarizationEnabled this)
  then ret None
  else
    match Self.storage this, Self.summarizer this with
    | Some storage, Some summarizer =>
        try_catch
          (let* existingSummary :=
             await
               (EvGetSummary (MemoryContext.entityType context)
                  (MemoryContext.entityId context)
                  (MemoryContext.modelKey context))
               (getSummary storage (MemoryContext.entityType context)
                  (MemoryContext.entityId context)
                  (MemoryContext.modelKey context)) in
           let newlyDroppedMessages :=
             newlyDropped existingSummary droppedMessages in
           match newlyDroppedMessages, existingSummary with
           | [], Some r =>
               ret (Some (summaryMessageOf (MemorySummaryRecord.summary r)))
           | [], None => ret None
           | _ :: _, _ =>
               let messagesText :=
                 join (String.append newline newline)
                   (map renderMessage newlyDroppedMessages) in
               let existingText :=
                 option_map MemorySummaryRecord.summary existingSummary in
               let* summaryText :=
                 await
                   (EvSummarize messagesText existingText
                      summarizationContext)
                   (summarize summarizer messagesText existingText
                      summarizationContext) in
               match summaryText with
               | Some newText =>
                   if truthy_string newText then
                     let newSummarizedThroughIndex :=
                       Z.of_nat (length droppedMessages) + 1 in
                     let data :=
                       {| UpsertSummaryData.entityType :=
                            MemoryContext.entityType context;
                          UpsertSummaryData.entityId :=
                            MemoryContext.entityId context;
                          UpsertSummaryData.modelKey :=
                            MemoryContext.modelKey context;
                          UpsertSummaryData.summary := newText;
                          UpsertSummaryData.summarizedThroughIndex :=
                            newSummarizedThroughIndex |} in
                     let* _u :=
                       fireAndForget (EvUpsertSummary data)
                         (upsertSummary storage data)
                         (fun _ => logWarn this) in
                     ret (Some (summaryMessageOf newText))
                   else
                     ret (option_map
                            (fun r => summaryMessageOf
                                        (MemorySummaryRecord.summary r))
                            existingSummary)
               | None =>
                   ret (option_map
                          (fun r => summaryMessageOf
                                      (MemorySummaryRecord.summary r))
                          existingSummary)
               end
           end)
          (fun _ => let* _u := logWarn this in ret None)
    | _, _ => ret None
    end.

Definition buildHistory (this : Manager)
    (input : BuildHistoryInput.t Payload)
    (context : option MemoryContext.t) : M (list Message) :=
  let allHistory := BuildHistoryInput.allHistory input in
  let contextWindow := BuildHistoryInput.contextWindow input in
  let maxOutputTokens := BuildHistoryInput.maxOutputTokens input in
  let systemMessage := BuildHistoryInput.systemMessage input in
  let newUserMessage := BuildHistoryInput.newUserMessage input in
  let* splitResult :=
    splitMessages this allHistory contextWindow maxOutputTokens
      systemMessage newUserMessage in
  if negb (wasTruncated splitResult) then
    ret (pushNewUserMessage allHistory newUserMessage)
  else if Nat.eqb (length (firstPair splitResult)) 0 then
    let* truncated :=
      truncateMessages this allHistory contextWindow maxOutputTokens
        systemMessage newUserMessage in
    ret (pushNewUserMessage truncated newUserMessage)
  else
    let* summaryMessage :=
      match context with
      | Some ctx =>
          buildSummaryMessage this (droppedMessages splitResult) ctx
            (BuildHistoryInput.summarizationContext input)
      | None => ret None
      end in
    let assembled :=
      firstPair splitResult
      ++ match summaryMessage with Some m => [m] | None => [] end
      ++ recentMessages splitResult in
    ret (pushNewUserMessage assembled newUserMessage).

Definition deleteSummaries (this : Manager)
    (entityType entityId : string) : M unit :=
  match Self.storage this with
  | None => ret tt
  | Some storage =>
      await (EvDeleteSummariesByEntity entityType entityId)
        (deleteSummariesByEntity storage entityType entityId)
  end.
End Methods.

End ThreeTierMemoryManager.

(* ================================================================== *)
(** ** Reference definitions used to state the properties *)
(* ================================================================== *)

Import TokenEstimationUtil MemorySplitUtil.

(** Estimated tokens of one message. *)
Definition messageTokens (cpt : option Q) (m : Message) : Z :=
  estimateContentTokens (content m) cpt.

(** The walk of the specification, on the messages listed newest first:
    a message is taken when it fits in what is left of the budget, and
    the first message that does not fit ends the walk, whatever comes
    after it. *)
Fixpoint takeWhileFits (cpt : option Q) (budget : Z)
    (newestFirst : list Message) : list Message :=
  match newestFirst with
  | [] => []
  | m :: older =>
      if messageTokens cpt m >? budget then []
      else m :: takeWhileFits cpt (budget - messageTokens cpt m) older
  end.

(** The sliding window of the specification, oldest first. *)
Definition slidingWindow (cpt : option Q) (budget : Z)
    (messages : list Message) : list Message :=
  reverse (takeWhileFits cpt budget (reverse messages)).

(** The pending new-user message as a list: one user message when a
    non-empty text was supplied, nothing otherwise. *)
Definition pendingMessage (newUserMessage : option string) : list Message :=
  match newUserMessage with
  | Some s => if decide (s = EmptyString) then [] else [userMessage s]
  | None => []
  end.

(** The estimated tokens of the first two messages. *)
Definition pairTokens (messages : list Message) (cpt : option Q) : Z :=
  sumTokens (take 2 messages) cpt.

(** What is left for the recent tier once the first pair and the
    summary slot are paid for. *)
Definition recentBudgetOf (messages : list Message)
    (config : ThreeTierConfig) : Z :=
  calculateHistoryBudget config
  - pairTokens messages (charsPerToken config)
  - maxSummaryBudgetTokens config.

(** The recent tier of the specification: the sliding window of the
    messages after the first pair under that budget, nothing when the
    budget is not positive. *)
Definition recentTierOf (messages : list Message)
    (config : ThreeTierConfig) : list Message :=
  if recentBudgetOf messages config >? 0
  then slidingWindow (charsPerToken config) (recentBudgetOf messages config)
         (drop 2 messages)
  else [].

(** The genuine three-tier result of the specification: the first two
    messages, the recent tier, and what lies between them. *)
Definition threeTierOf (messages : list Message)
    (config : ThreeTierConfig) : ThreeTierSplitResult :=
  {| firstPair := take 2 messages;
     droppedMessages :=
       take (length messages - 2 - length (recentTierOf messages config))
         (drop 2 messages);
     recentMessages := recentTierOf messages config;
     processedThroughIndex := Z.of_nat (length messages) - 1;
     wasTruncated := true |}.

(* ================================================================== *)
(** ** Reference definitions for the runs of the orchestrator *)
(* ================================================================== *)

Section OrchestratorDefs.
Import ThreeTierMemoryManager.
Context {World Payload Err : Type}.
Variable JSON_stringify : list ContentPart -> string.

Local Abbreviation Manager := (Self.t World Payload Err).

Implicit Types (this : Self.t World Payload Err) (w : World).
Implicit Types (sc : option Payload) (ctx : MemoryContext.t).
Implicit Types (dropped : list Message).
Implicit Types (input : BuildHistoryInput.t Payload).

(** The budget configuration that [buildHistory] hands to both
    splitting functions. *)
Definition budgetConfigOf (this : Manager)
    (input : BuildHistoryInput.t Payload) : TokenBudgetConfig :=
  {| contextWindow := BuildHistoryInput.contextWindow input;
     maxOutputTokens := BuildHistoryInput.maxOutputTokens input;
     systemMessage := BuildHistoryInput.systemMessage input;
     newUserMessage := BuildHistoryInput.newUserMessage input;
     charsPerToken := Self.charsPerToken this;
     safetyMargin := None |}.

Definition splitConfigOf (this : Manager)
    (input : BuildHistoryInput.t Payload) : ThreeTierConfig :=
  {| budgetConfig := budgetConfigOf this input;
     maxSummaryBudgetTokens := Self.maxSummaryBudgetTokens this |}.

(** The lines a configured logger receives when [flag] holds. *)
Definition debugLine (this : Manager) (flag : bool)
    : list (Event Payload Err) :=
  if flag && Self.logger this then [EvLogDebug] else [].

Definition warnLine (this : Manager) : list (Event Payload Err) :=
  if Self.logger this then [EvLogWarn] else [].

(** The text handed to the summarization engine. *)
Definition messagesTextOf (newly : list Message) : string :=
  join (String.append newline newline)
    (map (renderMessage JSON_stringify) newly).

Definition summaryOf (existing : option MemorySummaryRecord.t)
    : option string :=
  option_map MemorySummaryRecord.summary existing.

(** The record that a successful summarization writes. *)
Definition upsertDataOf (context : MemoryContext.t)
    (droppedMessages : list Message) (newText : string)
    : UpsertSummaryData.t :=
  {| UpsertSummaryData.entityType := MemoryContext.entityType context;
     UpsertSummaryData.entityId := MemoryContext.entityId context;
     UpsertSummaryData.modelKey := MemoryContext.modelKey context;
     UpsertSummaryData.summary := newText;
     UpsertSummaryData.summarizedThroughIndex :=
       Z.of_nat (length droppedMessages) + 1 |}.

Definition readSummary (storage : MemoryStorageAdapter World Err)
    (context : MemoryContext.t) (w : World) :=
  getSummary storage (MemoryContext.entityType context)
    (MemoryContext.entityId context) (MemoryContext.modelKey context) w.

Definition evRead (context : MemoryContext.t)
    (o : Outcome Err (option MemorySummaryRecord.t)) : Event Payload Err :=
  EvGetSummary (MemoryContext.entityType context)
    (MemoryContext.entityId context) (MemoryContext.modelKey context) o.

(** Summary resolution consults the store: the dropped tier is not
    empty, summarization is enabled and both collaborators exist. *)
Definition consults (this : Manager)
    (storage : MemoryStorageAdapter World Err)
    (summarizer : SummarizerAdapter World Payload Err)
    (droppedMessages : list Message) : Prop :=
  Self.storage this = Some storage
  /\ Self.summarizer this = Some summarizer
  /\ Self.summarizationEnabled this = true
  /\ droppedMessages <> [].

Definition splitOf this input : ThreeTierSplitResult :=
  splitForThreeTierMemory (BuildHistoryInput.allHistory input)
    (splitConfigOf this input).

(** What [buildHistory] assembles around a resolved summary. *)
Definition assembled this input (summaryMessage : option Message)
    : list Message :=
  firstPair (splitOf this input)
  ++ match summaryMessage with Some m => [m] | None => [] end
  ++ recentMessages (splitOf this input)
  ++ pendingMessage (BuildHistoryInput.newUserMessage input).

(** The ways summary resolution can go, with the message it returns,
    the state it leaves and the events it emits. *)
Inductive SummaryRun this dropped ctx sc w
  : option Message -> World -> list (Event Payload Err) -> Prop :=
| RunSkipped :
    dropped = [] \/ Self.summarizationEnabled this = false
    \/ Self.storage this = None \/ Self.summarizer this = None ->
    SummaryRun this dropped ctx sc w None w []
| RunReadFailed st su o w1 :
    consults this st su dropped ->
    readSummary st ctx w = (o, w1) ->
    (forall existing, o <> Resolved existing) ->
    SummaryRun this dropped ctx sc w None w1 (evRead ctx o :: warnLine this)
| RunCacheHit st su r w1 :
    consults this st su dropped ->
    readSummary st ctx w = (Resolved (Some r), w1) ->
    newlyDropped (Some r) dropped = [] ->
    SummaryRun this dropped ctx sc w
      (Some (summaryMessageOf (MemorySummaryRecord.summary r))) w1
      [evRead ctx (Resolved (Some r))]
| RunEngineFailed st su existing w1 o w2 :
    consults this st su dropped ->
    readSummary st ctx w = (Resolved existing, w1) ->
    newlyDropped existing dropped <> [] ->
    summarize su (messagesTextOf (newlyDropped existing dropped))
      (summaryOf existing) sc w1 = (o, w2) ->
    (forall text, o <> Resolved text) ->
    SummaryRun this dropped ctx sc w None w2
      ([evRead ctx (Resolved existing);
        EvSummarize (messagesTextOf (newlyDropped existing dropped))
          (summaryOf existing) sc o] ++ warnLine this)
| RunEngineNull st su existing w1 text w2 :
    consults this st su dropped ->
    readSummary st ctx w = (Resolved existing, w1) ->
    newlyDropped existing dropped <> [] ->
    summarize su (messagesTextOf (newlyDropped existing dropped))
      (summaryOf existing) sc w1 = (Resolved text, w2) ->
    truthy_opt_string text = false ->
    SummaryRun this dropped ctx sc w
      (option_map (fun r => summaryMessageOf (MemorySummaryRecord.summary r))
         existing)
      w2
      [evRead ctx (Resolved existing);
       EvSummarize (messagesTextOf (newlyDropped existing dropped))
         (summaryOf existing) sc (Resolved text)]
| RunEngineOk st su existing w1 t w2 u w3 :
    consults this st su dropped ->
    readSummary st ctx w = (Resolved existing, w1) ->
    newlyDropped existing dropped <> [] ->
    summarize su (messagesTextOf (newlyDropped existing dropped))
      (summaryOf existing) sc w1 = (Resolved (Some t), w2) ->
    truthy_string t = true ->
    upsertSummary st (upsertDataOf ctx dropped t) w2 = (u, w3) ->
    SummaryRun this dropped ctx sc w
      match u with
      | Thrown _ => None
      | _ => Some (summaryMessageOf t)
      end
      w3
      ([evRead ctx (Resolved existing);
        EvSummarize (messagesTextOf (newlyDropped existing dropped))
          (summaryOf existing) sc (Resolved (Some t));
        EvUpsertSummary (upsertDataOf ctx dropped t) u]
       ++ match u with
          | Resolved _ => []
          | _ => warnLine this
          end).

(** A storage that persists: a write resolves, and the read of the same
    key that follows it returns a record holding the written summary
    text and marker. *)
Definition persists (st : MemoryStorageAdapter World Err) : Prop :=
  forall ctx dropped (t : string) w,
  exists w' r w'',
    upsertSummary st (upsertDataOf ctx dropped t) w = (Resolved tt, w')
    /\ readSummary st ctx w' = (Resolved (Some r), w'')
    /\ MemorySummaryRecord.summary r = t
    /\ MemorySummaryRecord.summarizedThroughIndex r
       = Z.of_nat (length dropped) + 1.

End OrchestratorDefs.

(* ================================================================== *)
(** ** Scenarios of the test suite *)
(* ================================================================== *)

Module Scenario.

(** ['x'.repeat(n)] *)
Fixpoint xs (n : nat) : string :=
  match n with
  | O => EmptyString
  | S n' => String (Ascii.ascii_of_nat 120) (xs n')
  end.

(** The helper [msg(role, charLength)] of the test suite. *)
Definition msg (r : MessageRole) (charLength : nat) : Message :=
  {| role := r; content := ContentString (xs charLength);
     name := None; toolCallId := None; toolCalls := None |}.

(** A message that carries one image and no text: zero estimated tokens. *)
Definition imageMsg (r : MessageRole) : Message :=
  {| role := r;
     content :=
       ContentParts
         [ {| type := image_url_part; text := None;
              image_url := Some "https://example.com/img.png" |} ];
     name := None; toolCallId := None; toolCalls := None |}.

(** [{ contextWindow: 1000, maxOutputTokens: 200 }]: 600 tokens. *)
Definition baseConfig : TokenBudgetConfig :=
  {| contextWindow := 1000; maxOutputTokens := 200;
     systemMessage := None; newUserMessage := None;
     charsPerToken := None; safetyMargin := None |}.

(** [{ contextWindow: 700, maxOutputTokens: 200 }]: 300 tokens. *)
Definition smallConfig : TokenBudgetConfig :=
  {| contextWindow := 700; maxOutputTokens := 200;
     systemMessage := None; newUserMessage := None;
     charsPerToken := None; safetyMargin := None |}.

(** [{ contextWindow: 100, maxOutputTokens: 200 }]: -300 tokens. *)
Definition exhaustedConfig : TokenBudgetConfig :=
  {| contextWindow := 100; maxOutputTokens := 200;
     systemMessage := None; newUserMessage := None;
     charsPerToken := None; safetyMargin := None |}.

Definition threeTier (base : TokenBudgetConfig) (summaryTokens : Z)
    : ThreeTierConfig :=
  {| budgetConfig := base; maxSummaryBudgetTokens := summaryTokens |}.

(** Three messages of 1000 characters, 250 tokens each. *)
Definition threeLong : list Message :=
  [msg user 1000; msg assistant 1000; msg user 1000].

(** Ten alternating messages of 400 characters, 100 tokens each. *)
Definition tenMessages : list Message :=
  flat_map (fun _ => [msg user 400; msg assistant 400]) (seq 0 5).

End Scenario.

(* ================================================================== *)
(** ** Collaborators used in the scenarios of the orchestrator *)
(* ================================================================== *)

Module Stub.

(** An in-memory store: one record per (entityType, entityId,
    modelKey). *)
Abbreviation Store :=
  (gmap (string * string * option string) MemorySummaryRecord.t).

Definition recordOf (data : UpsertSummaryData.t) : MemorySummaryRecord.t :=
  {| MemorySummaryRecord.id := "1";
     MemorySummaryRecord.entityType := UpsertSummaryData.entityType data;
     MemorySummaryRecord.entityId := UpsertSummaryData.entityId data;
     MemorySummaryRecord.modelKey := UpsertSummaryData.modelKey data;
     MemorySummaryRecord.summary := UpsertSummaryData.summary data;
     MemorySummaryRecord.summarizedThroughIndex :=
       UpsertSummaryData.summarizedThroughIndex data;
     MemorySummaryRecord.createdAt := "";
     MemorySummaryRecord.updatedAt := "" |}.

Definition memoryStorage : MemoryStorageAdapter Store unit :=
  {| getSummary := fun entityType entityId modelKey store =>
       (Resolved (store !! (entityType, entityId, modelKey)), store);
     upsertSummary := fun data store =>
       (Resolved tt,
        <[(UpsertSummaryData.entityType data,
           UpsertSummaryData.entityId data,
           UpsertSummaryData.modelKey data) := recordOf data]> store);
     deleteSummariesByEntity := fun entityType entityId store =>
       (Resolved tt,
        filter (fun kv => ¬ (kv.1.1.1 = entityType /\ kv.1.1.2 = entityId))
          store) |}.

(** A summarizer that answers every request with the same outcome. *)
Definition constSummarizer (outcome : Outcome unit (option string))
    : SummarizerAdapter Store unit unit :=
  {| summarize := fun _ _ _ store => (outcome, store) |}.

(** A storage whose reads reject. *)
Definition failingStorage : MemoryStorageAdapter Store unit :=
  {| getSummary := fun _ _ _ store => (Rejected tt, store);
     upsertSummary := upsertSummary memoryStorage;
     deleteSummariesByEntity := deleteSummariesByEntity memoryStorage |}.

(** A storage that reads, and whose writes end with [outcome] and
    change nothing. *)
Definition failingWrites (outcome : Outcome unit unit)
    : MemoryStorageAdapter Store unit :=
  {| getSummary := getSummary memoryStorage;
     upsertSummary := fun _ store => (outcome, store);
     deleteSummariesByEntity := deleteSummariesByEntity memoryStorage |}.

Definition managerWith (storage : MemoryStorageAdapter Store unit)
    (outcome : Outcome unit (option string))
    (summaryTokens : Z) : ThreeTierMemoryManager.Self.t Store unit unit :=
  {| ThreeTierMemoryManager.Self.storage := Some storage;
     ThreeTierMemoryManager.Self.summarizer := Some (constSummarizer outcome);
     ThreeTierMemoryManager.Self.summarizationEnabled := true;
     ThreeTierMemoryManager.Self.maxSummaryBudgetTokens := summaryTokens;
     ThreeTierMemoryManager.Self.charsPerToken := None;
     ThreeTierMemoryManager.Self.logger := false |}.

Definition manager := managerWith memoryStorage.

(** The dropped tier of the ten-message scenario. *)
Definition droppedFive : list Message := take 5 (drop 2 Scenario.tenMessages).

Definition context : MemoryContext.t :=
  {| MemoryContext.entityType := "chat";
     MemoryContext.entityId := "42";
     MemoryContext.modelKey := None |}.

Definition storedRecord (summary : string) (marker : Z)
    : MemorySummaryRecord.t :=
  {| MemorySummaryRecord.id := "1";
     MemorySummaryRecord.entityType := "chat";
     MemorySummaryRecord.entityId := "42";
     MemorySummaryRecord.modelKey := None;
     MemorySummaryRecord.summary := summary;
     MemorySummaryRecord.summarizedThroughIndex := marker;
     MemorySummaryRecord.createdAt := "";
     MemorySummaryRecord.updatedAt := "" |}.

Definition storeWith (summary : string) (marker : Z) : Store :=
  {[ ("chat", "42", None) := storedRecord summary marker ]}.

Definition input (history : list Message) (contextWindow maxOutputTokens : Z)
    (newUserMessage : option string) : BuildHistoryInput.t unit :=
  {| BuildHistoryInput.allHistory := history;
     BuildHistoryInput.contextWindow := contextWindow;
     BuildHistoryInput.maxOutputTokens := maxOutputTokens;
     BuildHistoryInput.systemMessage := None;
     BuildHistoryInput.newUserMessage := newUserMessage;
     BuildHistoryInput.summarizationContext := None |}.

(** A stand-in for [JSON.stringify] in the scenarios, whose messages
    all have string content. *)
Definition stringify (parts : list ContentPart) : string := "[]".

End Stub.

(* ================================================================== *)
(** ** Properties of the token estimator *)
(* ================================================================== *)

Section EstimatorFacts.

Lemma truthy_string_spec (s : string) :
  truthy_string s = true <-> s <> EmptyString.
Proof.
  unfold truthy_string. destruct s as [|c s]; simpl.
  - split; [discriminate | congruence].
  - split; [discriminate | reflexivity].
Qed.

Lemma truthy_string_empty : truthy_string EmptyString = false.
Proof. reflexivity. Qed.

Lemma Qle_bool_false_lt (x y : Q) : Qle_bool x y = false <-> (y < x)%Q.
Proof.
  split.
  - intros Hb. apply Qnot_le_lt. intros Hle.
    apply Qle_bool_iff in Hle. congruence.
  - intros Hlt. destruct (Qle_bool x y) eqn:Hb; [|reflexivity].
    apply Qle_bool_iff in Hb. exfalso. exact (Qlt_not_le _ _ Hlt Hb).
Qed.

Lemma ceil_div_nonneg (n : nat) (cpt : Q) :
  (0 < cpt)%Q -> 0 <= ceil_div n cpt.
Proof.
  intros Hpos. unfold ceil_div.
  change 0 with (Qceiling (inject_Z 0)).
  apply Qceiling_resp_le.
  apply Qle_shift_div_l; [exact Hpos|].
  rewrite Qmult_0_l.
  change (inject_Z 0 <= inject_Z (Z.of_nat n))%Q.
  rewrite <- Zle_Qle. lia.
Qed.

Lemma ceil_div_zero (cpt : Q) : (0 < cpt)%Q -> ceil_div 0 cpt = 0.
Proof.
  intros Hpos. unfold ceil_div. simpl Z.of_nat.
  assert (Heq : (inject_Z 0 / cpt == inject_Z 0)%Q).
  { unfold Qdiv. apply Qmult_0_l. }
  rewrite Heq. apply Qceiling_Z.
Qed.

Lemma estimateStringTokens_nonneg text cpt :
  0 <= estimateStringTokens text cpt.
Proof.
  unfold estimateStringTokens.
  destruct (negb (truthy_string text)); simpl; [lia|].
  destruct (Qle_bool _ _) eqn:Hb; [lia|].
  apply ceil_div_nonneg, Qle_bool_false_lt, Hb.
Qed.

Lemma estimateContentTokens_nonneg c cpt :
  0 <= estimateContentTokens c cpt.
Proof.
  destruct c as [s|parts]; simpl.
  - apply estimateStringTokens_nonneg.
  - destruct (Qle_bool _ _) eqn:Hb; [lia|].
    apply ceil_div_nonneg, Qle_bool_false_lt, Hb.
Qed.

End EstimatorFacts.

(* ================================================================== *)
(** ** Properties of the budget splitter *)
(* ================================================================== *)

Section SplitterFacts.
Variable cpt : option Q.

Lemma messageTokens_nonneg m : 0 <= messageTokens cpt m.
Proof. apply estimateContentTokens_nonneg. Qed.

Lemma fold_tokens_acc (l : list Message) (acc : Z) :
  fold_left (fun a msg => a + estimateContentTokens (content msg) cpt) l acc
  = acc + sumTokens l cpt.
Proof.
  unfold sumTokens. revert acc.
  induction l as [|m l IH]; intros acc; simpl; [lia|].
  rewrite IH. rewrite (IH (0 + _)). lia.
Qed.

Lemma sumTokens_nil : sumTokens [] cpt = 0.
Proof. reflexivity. Qed.

Lemma sumTokens_cons m l :
  sumTokens (m :: l) cpt = messageTokens cpt m + sumTokens l cpt.
Proof.
  unfold sumTokens at 1. simpl. rewrite fold_tokens_acc.
  unfold messageTokens. lia.
Qed.

Lemma sumTokens_app l1 l2 :
  sumTokens (l1 ++ l2) cpt = sumTokens l1 cpt + sumTokens l2 cpt.
Proof.
  induction l1 as [|m l1 IH]; simpl.
  - rewrite sumTokens_nil. lia.
  - rewrite !sumTokens_cons, IH. lia.
Qed.

Lemma sumTokens_nonneg l : 0 <= sumTokens l cpt.
Proof.
  induction l as [|m l IH].
  - rewrite sumTokens_nil. lia.
  - rewrite sumTokens_cons. pose proof (messageTokens_nonneg m). lia.
Qed.

Lemma sumTokens_reverse l : sumTokens (reverse l) cpt = sumTokens l cpt.
Proof.
  induction l as [|m l IH]; [reflexivity|].
  rewrite reverse_cons, sumTokens_app, IH, !sumTokens_cons, sumTokens_nil.
  lia.
Qed.

(** *** The walk of the specification *)

Lemma takeWhileFits_prefix budget l :
  takeWhileFits cpt budget l `prefix_of` l.
Proof.
  revert budget. induction l as [|m l IH]; intros budget; simpl.
  - reflexivity.
  - destruct (messageTokens cpt m >? budget).
    + apply prefix_nil.
    + apply prefix_cons, IH.
Qed.

Lemma takeWhileFits_within budget l :
  0 <= budget -> sumTokens (takeWhileFits cpt budget l) cpt <= budget.
Proof.
  revert budget. induction l as [|m l IH]; intros budget Hb; simpl.
  - rewrite sumTokens_nil. lia.
  - destruct (messageTokens cpt m >? budget) eqn:Hgt.
    + rewrite sumTokens_nil. lia.
    + rewrite sumTokens_cons.
      assert (messageTokens cpt m <= budget) by lia.
      specialize (IH (budget - messageTokens cpt m)). lia.
Qed.

Lemma takeWhileFits_all budget l :
  sumTokens l cpt <= budget -> takeWhileFits cpt budget l = l.
Proof.
  revert budget. induction l as [|m l IH]; intros budget Hb; simpl.
  - reflexivity.
  - rewrite sumTokens_cons in Hb.
    pose proof (sumTokens_nonneg l).
    destruct (messageTokens cpt m >? budget) eqn:Hgt; [lia|].
    f_equal. apply IH. lia.
Qed.

(** The walk stops at a message that does not fit: when it takes
    [taken] and leaves [m] next, [m] exceeds what is left. *)
Lemma takeWhileFits_stops budget l taken m rest :
  takeWhileFits cpt budget l = taken ->
  l = taken ++ m :: rest ->
  messageTokens cpt m + sumTokens taken cpt > budget.
Proof.
  revert budget taken. induction l as [|x l IH]; intros budget taken Ht Hl.
  - destruct taken; discriminate.
  - simpl in Ht. destruct (messageTokens cpt x >? budget) eqn:Hgt.
    + subst taken. simpl in Hl. injection Hl as -> _.
      rewrite sumTokens_nil. lia.
    + destruct taken as [|y taken]; [discriminate|].
      injection Ht as -> Ht. simpl in Hl. injection Hl as Hl.
      rewrite sumTokens_cons.
      specialize (IH _ _ Ht Hl). lia.
Qed.

(** *** The loop of the code against the walk of the specification *)

Lemma walkBackward_spec (messages : list Message) (budget : Z) (lo : nat) :
  forall (n : nat) (used : Z) (kept : list Message),
    (lo + n <= length messages)%nat ->
    walkBackward messages cpt budget lo n used kept
    = kept ++ takeWhileFits cpt (budget - used)
                (reverse (take n (drop lo messages))).
Proof.
  induction n as [|n IH]; intros used kept Hlen.
  - simpl. rewrite app_nil_r. reflexivity.
  - simpl.
    destruct (lookup_lt_is_Some_2 messages (lo + n)) as [m Hm]; [lia|].
    rewrite Hm.
    assert (Hd : drop lo messages !! n = Some m)
      by (rewrite lookup_drop; exact Hm).
    rewrite (take_S_r _ _ _ Hd), reverse_snoc. simpl.
    unfold messageTokens at 1.
    replace (estimateContentTokens (content m) cpt >? budget - used)
      with (used + estimateContentTokens (content m) cpt >? budget)
      by (apply Bool.eq_true_iff_eq; rewrite !Z.gtb_gt; lia).
    destruct (used + estimateContentTokens (content m) cpt >? budget).
    + rewrite app_nil_r. reflexivity.
    + rewrite IH by lia. rewrite <- app_assoc. simpl.
      unfold messageTokens.
      replace (budget - (used + estimateContentTokens (content m) cpt))
        with (budget - used - estimateContentTokens (content m) cpt) by lia.
      reflexivity.
Qed.

Lemma reverse_prefix_reverse_suffix (l k : list Message) :
  k `prefix_of` reverse l -> reverse k `suffix_of` l.
Proof.
  intros [rest Hrest]. exists (reverse rest).
  rewrite <- (reverse_involutive l), Hrest, reverse_app. reflexivity.
Qed.

Lemma slidingWindow_suffix budget messages :
  slidingWindow cpt budget messages `suffix_of` messages.
Proof.
  apply reverse_prefix_reverse_suffix, takeWhileFits_prefix.
Qed.

Lemma slidingWindow_within budget messages :
  0 <= budget -> sumTokens (slidingWindow cpt budget messages) cpt <= budget.
Proof.
  intros Hb. unfold slidingWindow.
  rewrite sumTokens_reverse. apply takeWhileFits_within, Hb.
Qed.

Lemma slidingWindow_all budget messages :
  sumTokens messages cpt <= budget ->
  slidingWindow cpt budget messages = messages.
Proof.
  intros Hb. unfold slidingWindow.
  rewrite takeWhileFits_all by (rewrite sumTokens_reverse; exact Hb).
  apply reverse_involutive.
Qed.

Lemma slidingWindow_stops budget messages older m :
  messages = older ++ m :: slidingWindow cpt budget messages ->
  messageTokens cpt m + sumTokens (slidingWindow cpt budget messages) cpt
  > budget.
Proof.
  intros Hm. unfold slidingWindow in *.
  rewrite sumTokens_reverse.
  eapply takeWhileFits_stops with (l := reverse messages)
                                  (rest := reverse older); [reflexivity|].
  rewrite Hm at 1.
  rewrite reverse_app, reverse_cons, reverse_involutive, <- app_assoc.
  reflexivity.
Qed.

End SplitterFacts.

Lemma truncateToTokenBudget_positive messages config :
  0 < calculateHistoryBudget config ->
  truncateToTokenBudget messages config
  = slidingWindow (charsPerToken config) (calculateHistoryBudget config)
      messages.
Proof.
  intros Hpos. unfold truncateToTokenBudget.
  destruct (Nat.eqb_spec (length messages) 0) as [Hnil|Hne].
  - destruct messages; [reflexivity|discriminate].
  - destruct (calculateHistoryBudget config <=? 0) eqn:Hle; [lia|].
    rewrite walkBackward_spec by lia.
    rewrite drop_0, take_ge, Z.sub_0_r by lia. reflexivity.
Qed.

Lemma truncateToTokenBudget_exhausted messages config :
  messages = [] \/ calculateHistoryBudget config <= 0 ->
  truncateToTokenBudget messages config = [].
Proof.
  intros [-> | Hle]; [reflexivity|].
  unfold truncateToTokenBudget.
  destruct (Nat.eqb (length messages) 0); [reflexivity|].
  destruct (calculateHistoryBudget config <=? 0) eqn:Hb; [reflexivity|lia].
Qed.

(** The recent tier of a genuine three-tier split is the sliding window
    of the messages after the first pair. *)
Lemma recent_walk_spec messages cpt budget :
  reverse (walkBackward messages cpt budget MIN_MESSAGES_FOR_FIRST_PAIR
             (length messages - MIN_MESSAGES_FOR_FIRST_PAIR) 0 [])
  = slidingWindow cpt budget (drop MIN_MESSAGES_FOR_FIRST_PAIR messages).
Proof.
  destruct (le_lt_dec MIN_MESSAGES_FOR_FIRST_PAIR (length messages)) as [Hge|Hlt].
  - rewrite walkBackward_spec by lia.
    rewrite take_ge, Z.sub_0_r by (rewrite ?length_drop; lia). reflexivity.
  - replace (length messages - MIN_MESSAGES_FOR_FIRST_PAIR)%nat with 0%nat by lia.
    rewrite drop_ge by lia. reflexivity.
Qed.

(** Taking a list apart at a suffix: what [slice] cuts before a suffix
    of the tail is the rest of the tail. *)
Lemma slice_before_suffix (messages recent : list Message) (k : nat) :
  recent `suffix_of` drop k messages ->
  (k <= length messages)%nat ->
  take k messages
    ++ slice k (length messages - length recent) messages ++ recent
  = messages.
Proof.
  intros [pre Hpre] Hk. unfold slice.
  assert (Hlen : (length messages - length recent - k)%nat = length pre).
  { pose proof (length_drop messages k) as Hd.
    rewrite Hpre, length_app in Hd. lia. }
  rewrite Hlen, Hpre, take_app_length, <- Hpre.
  apply take_drop.
Qed.

(** C8. With fewer than two messages the split reports no truncation,
    whatever the budget (also when it is zero or negative): the first
    pair and the dropped tier are empty and the recent tier is the whole
    input. *)
Theorem C8_short_history_not_truncated
    (messages : list Message) (config : ThreeTierConfig) :
  (length messages < 2)%nat ->
  let r := splitForThreeTierMemory messages config in
  wasTruncated r = false
  /\ firstPair r = []
  /\ droppedMessages r = []
  /\ recentMessages r = messages.
Proof.
  intros Hlen r. subst r. unfold splitForThreeTierMemory.
  destruct (Nat.ltb_spec (length messages) MIN_MESSAGES_FOR_FIRST_PAIR) as [_|Hge].
  - repeat split; reflexivity.
  - unfold MIN_MESSAGES_FOR_FIRST_PAIR in Hge. lia.
Qed.

(** C1. When the split reports truncation with a non-empty first pair,
    the three tiers partition the input: their lengths add up to the
    length of the input and first pair, dropped tier and recent tier,
    concatenated in this order, are the input itself. *)
Theorem C1_three_tier_partition
    (messages : list Message) (config : ThreeTierConfig) :
  let r := splitForThreeTierMemory messages config in
  wasTruncated r = true ->
  firstPair r <> [] ->
  (length (firstPair r) + length (droppedMessages r)
   + length (recentMessages r) = length messages)%nat
  /\ firstPair r ++ droppedMessages r ++ recentMessages r = messages.
Proof.
  intros r Htrunc Hpair.
  assert (Hcat : firstPair r ++ droppedMessages r ++ recentMessages r = messages).
  { subst r. unfold splitForThreeTierMemory in *.
    destruct (Nat.ltb_spec (length messages) MIN_MESSAGES_FOR_FIRST_PAIR)
      as [Hlt|Hge]; [discriminate|].
    destruct (calculateHistoryBudget config <=? 0);
      [exfalso; apply Hpair; reflexivity|].
    destruct (messages !! 0%nat) as [m0|]; [|discriminate].
    destruct (messages !! 1%nat) as [m1|]; [|discriminate].
    destruct (_ >=? _); [exfalso; apply Hpair; reflexivity|].
    destruct (sumTokens messages (charsPerToken config) <=? _);
      [discriminate|].
    cbn [firstPair droppedMessages recentMessages].
    unfold slice at 1. rewrite Nat.sub_0_r, drop_0.
    apply slice_before_suffix; [|exact Hge].
    destruct (_ >? 0).
    - rewrite recent_walk_spec. apply slidingWindow_suffix.
    - apply suffix_nil. }
  split; [|exact Hcat].
  apply (f_equal length) in Hcat. rewrite !length_app in Hcat. lia.
Qed.


(** Three messages of 250 tokens under 600 tokens: the last two stay. *)
Example sliding_window_scenario :
  truncateToTokenBudget Scenario.threeLong Scenario.baseConfig
  = drop 1 Scenario.threeLong.
Proof. vm_compute. reflexivity. Qed.

(** Ten messages of 100 tokens under 600 tokens with 100 tokens kept
    for the summary: first pair, five dropped, three recent. *)
Example three_tier_scenario :
  let r := splitForThreeTierMemory Scenario.tenMessages
             (Scenario.threeTier Scenario.baseConfig 100) in
  firstPair r = take 2 Scenario.tenMessages
  /\ droppedMessages r = take 5 (drop 2 Scenario.tenMessages)
  /\ recentMessages r = drop 7 Scenario.tenMessages
  /\ processedThroughIndex r = 9
  /\ wasTruncated r = true.
Proof. vm_compute. repeat split; reflexivity. Qed.

Lemma C8_short_history_not_truncated_witness :
  let r := splitForThreeTierMemory [Scenario.msg user 10]
             (Scenario.threeTier Scenario.exhaustedConfig 100) in
  wasTruncated r = false
  /\ firstPair r = []
  /\ droppedMessages r = []
  /\ recentMessages r = [Scenario.msg user 10].
Proof.
  apply (C8_short_history_not_truncated [Scenario.msg user 10]
           (Scenario.threeTier Scenario.exhaustedConfig 100)).
  simpl. lia.
Defined.

Lemma C1_three_tier_partition_witness :
  let r := splitForThreeTierMemory Scenario.tenMessages
             (Scenario.threeTier Scenario.baseConfig 100) in
  (length (firstPair r) + length (droppedMessages r)
   + length (recentMessages r) = length Scenario.tenMessages)%nat
  /\ firstPair r ++ droppedMessages r ++ recentMessages r
     = Scenario.tenMessages.
Proof.
  apply (C1_three_tier_partition Scenario.tenMessages
           (Scenario.threeTier Scenario.baseConfig 100)).
  - vm_compute. reflexivity.
  - vm_compute. discriminate.
Defined.

(** C2. The list returned by [truncateToTokenBudget] is a contiguous
    suffix of the input in the original order; when the budget leaves
    room (it is not negative) the estimated total of the list does not
    exceed it; for a positive budget the list is the walk from newest to
    oldest that ends at the first message that would exceed the budget,
    so the message just before the returned window, when there is one,
    does not fit with it; for an empty input or a non-positive budget
    the list is empty. *)
Theorem C2_sliding_window_contract
    (messages : list Message) (config : TokenBudgetConfig) :
  let budget := calculateHistoryBudget config in
  let cpt := charsPerToken config in
  let result := truncateToTokenBudget messages config in
  result `suffix_of` messages
  /\ (0 <= budget -> sumTokens result cpt <= budget)
  /\ (0 < budget -> result = slidingWindow cpt budget messages)
  /\ (0 < budget ->
      forall older m, messages = older ++ m :: result ->
        messageTokens cpt m + sumTokens result cpt > budget)
  /\ (messages = [] \/ budget <= 0 -> result = []).
Proof.
  intros budget cpt result. subst budget cpt result.
  destruct (Z_lt_le_dec 0 (calculateHistoryBudget config)) as [Hpos|Hle].
  - rewrite (truncateToTokenBudget_positive _ _ Hpos).
    split; [apply slidingWindow_suffix|].
    split; [intros _; apply slidingWindow_within; lia|].
    split; [reflexivity|].
    split; [intros _ older m; apply slidingWindow_stops|].
    intros [-> | Hle]; [reflexivity|lia].
  - rewrite (truncateToTokenBudget_exhausted messages config) by (right; exact Hle).
    split; [apply suffix_nil|].
    split; [intros Hb; rewrite sumTokens_nil; exact Hb|].
    split; [lia|]. split; [lia|]. reflexivity.
Qed.

Lemma C2_sliding_window_contract_witness :
  let result := truncateToTokenBudget Scenario.threeLong Scenario.baseConfig in
  result `suffix_of` Scenario.threeLong
  /\ sumTokens result None <= 600
  /\ result = slidingWindow None 600 Scenario.threeLong
  /\ messageTokens None (Scenario.msg user 1000) + sumTokens result None > 600.
Proof.
  destruct (C2_sliding_window_contract Scenario.threeLong Scenario.baseConfig)
    as (Hsuf & Hsum & Hwalk & Hstop & _).
  split; [exact Hsuf|].
  split; [apply Hsum; vm_compute; discriminate|].
  split; [apply Hwalk; reflexivity|].
  apply (Hstop ltac:(reflexivity) [] (Scenario.msg user 1000)).
  vm_compute. reflexivity.
Defined.

(** The ten-message scenario through [buildHistory] on an empty store:
    one read, one engine call on the five dropped messages, one write
    with marker 6, and the summary between first pair and recent tier. *)
Example orchestrator_scenario :
  ThreeTierMemoryManager.buildHistory Stub.stringify
    (Stub.manager (Resolved (Some "S")) 100)
    (Stub.input Scenario.tenMessages 1000 200 None)
    (Some Stub.context) ∅
  = (Returned
       (take 2 Scenario.tenMessages
        ++ [ThreeTierMemoryManager.summaryMessageOf "S"]
        ++ drop 7 Scenario.tenMessages),
     Stub.storeWith "S" 6,
     [ EvGetSummary "chat" "42" None (Resolved None);
       EvSummarize
         (ThreeTierMemoryManager.join
            (String.append ThreeTierMemoryManager.newline
               ThreeTierMemoryManager.newline)
            (map (ThreeTierMemoryManager.renderMessage Stub.stringify)
               (take 5 (drop 2 Scenario.tenMessages))))
         None None (Resolved (Some "S"));
       EvUpsertSummary
         {| UpsertSummaryData.entityType := "chat";
            UpsertSummaryData.entityId := "42";
            UpsertSummaryData.modelKey := None;
            UpsertSummaryData.summary := "S";
            UpsertSummaryData.summarizedThroughIndex := 6 |}
         (Resolved tt) ]).
Proof. vm_compute. reflexivity. Qed.

(* ================================================================== *)
(** ** Properties of the orchestrator *)
(* ================================================================== *)

Section OrchestratorFacts.
Import ThreeTierMemoryManager.
Context {World Payload Err : Type}.
Variable JSON_stringify : list ContentPart -> string.

Local Abbreviation Manager := (Self.t World Payload Err).

Implicit Types (this : Self.t World Payload Err) (w : World).
Implicit Types (sc : option Payload) (ctx : MemoryContext.t).
Implicit Types (dropped : list Message).
Implicit Types (input : BuildHistoryInput.t Payload).

Lemma pushNewUserMessage_pending l nm :
  pushNewUserMessage l nm = l ++ pendingMessage nm.
Proof.
  unfold pushNewUserMessage, pendingMessage.
  destruct nm as [s|]; [|rewrite app_nil_r; reflexivity].
  destruct (decide (s = EmptyString)) as [->|Hne].
  - simpl. rewrite app_nil_r. reflexivity.
  - apply truthy_string_spec in Hne. rewrite Hne. reflexivity.
Qed.

Lemma collaboratorCalls_debugLine this flag :
  collaboratorCalls (debugLine this flag) = [].
Proof. unfold debugLine. destruct (flag && _); reflexivity. Qed.

Lemma collaboratorCalls_app (evs1 evs2 : list (Event Payload Err)) :
  collaboratorCalls (evs1 ++ evs2)
  = collaboratorCalls evs1 ++ collaboratorCalls evs2.
Proof. apply List.filter_app. Qed.

Lemma splitMessages_run this input w :
  splitMessages this (BuildHistoryInput.allHistory input)
    (BuildHistoryInput.contextWindow input)
    (BuildHistoryInput.maxOutputTokens input)
    (BuildHistoryInput.systemMessage input)
    (BuildHistoryInput.newUserMessage input) w
  = (Returned (splitForThreeTierMemory (BuildHistoryInput.allHistory input)
                 (splitConfigOf this input)),
     w,
     debugLine this
       (wasTruncated
          (splitForThreeTierMemory (BuildHistoryInput.allHistory input)
             (splitConfigOf this input)))).
Proof.
  unfold splitMessages, splitForThreeTierMemory.
  destruct (_ <? _)%nat; [reflexivity|].
  fold (budgetConfigOf this input). fold (splitConfigOf this input).
  match goal with
  | |- context [wasTruncated ?r] => generalize r
  end.
  intros r. unfold bind, logDebug, debugLine, emit, ret.
  destruct (wasTruncated r), (Self.logger this); reflexivity.
Qed.

Lemma truncateMessages_run this input w :
  truncateMessages this (BuildHistoryInput.allHistory input)
    (BuildHistoryInput.contextWindow input)
    (BuildHistoryInput.maxOutputTokens input)
    (BuildHistoryInput.systemMessage input)
    (BuildHistoryInput.newUserMessage input) w
  = (Returned (truncateToTokenBudget (BuildHistoryInput.allHistory input)
                 (budgetConfigOf this input)),
     w,
     debugLine this
       (length (truncateToTokenBudget (BuildHistoryInput.allHistory input)
                  (budgetConfigOf this input))
        <? length (BuildHistoryInput.allHistory input))%nat).
Proof.
  unfold truncateMessages.
  destruct (BuildHistoryInput.allHistory input) as [|m l] eqn:Hh.
  - reflexivity.
  - cbn [length Nat.eqb]. fold (budgetConfigOf this input).
    match goal with
    | |- context [(?a <? ?b)%nat] => generalize (a <? b)%nat
    end.
    intros flag. unfold bind, logDebug, debugLine, emit, ret.
    destruct flag, (Self.logger this); reflexivity.
Qed.

(** *** Summary resolution, stage by stage *)

Ltac enter_summary H :=
  let Hst := fresh "Hst" in
  let Hsu := fresh "Hsu" in
  let Hen := fresh "Hen" in
  let Hne := fresh "Hne" in
  destruct H as (Hst & Hsu & Hen & Hne);
  unfold ThreeTierMemoryManager.buildSummaryMessage;
  rewrite Hst, Hsu, Hen;
  match goal with
  | |- context [Nat.eqb (length ?d) 0] =>
      replace (Nat.eqb (length d) 0) with false
        by (destruct d; [contradiction | reflexivity])
  end;
  cbn [orb negb];
  unfold try_catch, bind, await, fireAndForget, ret, logWarn, emit.

Lemma buildSummaryMessage_skipped this dropped ctx sc w :
  dropped = [] \/ Self.summarizationEnabled this = false
  \/ Self.storage this = None \/ Self.summarizer this = None ->
  buildSummaryMessage JSON_stringify this dropped ctx sc w
  = (Returned None, w, []).
Proof.
  unfold buildSummaryMessage.
  intros [-> | [Hen | [Hst | Hsu]]].
  - reflexivity.
  - rewrite Hen, Bool.orb_true_r. reflexivity.
  - rewrite Hst. destruct (_ || _); reflexivity.
  - rewrite Hsu. destruct (_ || _); [reflexivity|].
    destruct (Self.storage this); reflexivity.
Qed.

Lemma buildSummaryMessage_read_failed this st su dropped ctx sc w o w1 :
  consults this st su dropped ->
  readSummary st ctx w = (o, w1) ->
  (forall existing, o <> Resolved existing) ->
  buildSummaryMessage JSON_stringify this dropped ctx sc w
  = (Returned None, w1, evRead ctx o :: warnLine this).
Proof.
  intros Hc Hread Hfail. enter_summary Hc.
  unfold readSummary in Hread. rewrite Hread. unfold evRead, warnLine.
  destruct o as [existing|e|e]; [destruct (Hfail existing); reflexivity| |];
    destruct (Self.logger this); reflexivity.
Qed.

Lemma buildSummaryMessage_cache_hit this st su dropped ctx sc w r w1 :
  consults this st su dropped ->
  readSummary st ctx w = (Resolved (Some r), w1) ->
  newlyDropped (Some r) dropped = [] ->
  buildSummaryMessage JSON_stringify this dropped ctx sc w
  = (Returned (Some (summaryMessageOf (MemorySummaryRecord.summary r))),
     w1, [evRead ctx (Resolved (Some r))]).
Proof.
  intros Hc Hread Hnew. enter_summary Hc.
  unfold readSummary in Hread. rewrite Hread, Hnew. reflexivity.
Qed.

Lemma buildSummaryMessage_engine_failed
    this st su dropped ctx sc w existing w1 o w2 :
  consults this st su dropped ->
  readSummary st ctx w = (Resolved existing, w1) ->
  newlyDropped existing dropped <> [] ->
  summarize su (messagesTextOf JSON_stringify (newlyDropped existing dropped))
    (summaryOf existing) sc w1 = (o, w2) ->
  (forall text, o <> Resolved text) ->
  buildSummaryMessage JSON_stringify this dropped ctx sc w
  = (Returned None, w2,
     [evRead ctx (Resolved existing);
      EvSummarize (messagesTextOf JSON_stringify (newlyDropped existing dropped))
        (summaryOf existing) sc o] ++ warnLine this).
Proof.
  intros Hc Hread Hnew Hsum Hfail. enter_summary Hc.
  unfold readSummary in Hread. rewrite Hread.
  unfold messagesTextOf, summaryOf in Hsum.
  destruct (newlyDropped existing dropped) as [|m newly]; [contradiction|].
  rewrite Hsum. unfold evRead, warnLine, messagesTextOf, summaryOf.
  destruct o as [text|e|e]; [destruct (Hfail text); reflexivity| |];
    destruct (Self.logger this); reflexivity.
Qed.

Lemma buildSummaryMessage_engine_null
    this st su dropped ctx sc w existing w1 text w2 :
  consults this st su dropped ->
  readSummary st ctx w = (Resolved existing, w1) ->
  newlyDropped existing dropped <> [] ->
  summarize su (messagesTextOf JSON_stringify (newlyDropped existing dropped))
    (summaryOf existing) sc w1 = (Resolved text, w2) ->
  truthy_opt_string text = false ->
  buildSummaryMessage JSON_stringify this dropped ctx sc w
  = (Returned
       (option_map
          (fun r => summaryMessageOf (MemorySummaryRecord.summary r))
          existing),
     w2,
     [evRead ctx (Resolved existing);
      EvSummarize (messagesTextOf JSON_stringify (newlyDropped existing dropped))
        (summaryOf existing) sc (Resolved text)]).
Proof.
  intros Hc Hread Hnew Hsum Hnull. enter_summary Hc.
  unfold readSummary in Hread. rewrite Hread.
  unfold messagesTextOf, summaryOf in Hsum.
  destruct (newlyDropped existing dropped) as [|m newly]; [contradiction|].
  rewrite Hsum. unfold evRead, messagesTextOf, summaryOf.
  destruct text as [t|]; [|reflexivity].
  simpl in Hnull. rewrite Hnull. reflexivity.
Qed.

Lemma buildSummaryMessage_engine_ok
    this st su dropped ctx sc w existing w1 t w2 u w3 :
  consults this st su dropped ->
  readSummary st ctx w = (Resolved existing, w1) ->
  newlyDropped existing dropped <> [] ->
  summarize su (messagesTextOf JSON_stringify (newlyDropped existing dropped))
    (summaryOf existing) sc w1 = (Resolved (Some t), w2) ->
  truthy_string t = true ->
  upsertSummary st (upsertDataOf ctx dropped t) w2 = (u, w3) ->
  buildSummaryMessage JSON_stringify this dropped ctx sc w
  = (Returned
       match u with
       | Thrown _ => None
       | _ => Some (summaryMessageOf t)
       end,
     w3,
     [evRead ctx (Resolved existing);
      EvSummarize (messagesTextOf JSON_stringify (newlyDropped existing dropped))
        (summaryOf existing) sc (Resolved (Some t));
      EvUpsertSummary (upsertDataOf ctx dropped t) u]
     ++ match u with
        | Resolved _ => []
        | _ => warnLine this
        end).
Proof.
  intros Hc Hread Hnew Hsum Ht Hup. enter_summary Hc.
  unfold readSummary in Hread. rewrite Hread.
  unfold messagesTextOf, summaryOf in Hsum.
  destruct (newlyDropped existing dropped) as [|m newly]; [contradiction|].
  rewrite Hsum, Ht. unfold upsertDataOf in Hup. rewrite Hup.
  unfold evRead, warnLine, messagesTextOf, summaryOf, upsertDataOf.
  destruct u as [[]|e|e]; destruct (Self.logger this); reflexivity.
Qed.

(** *** The three paths of [buildHistory] *)

Lemma buildHistory_no_truncation this input context w :
  wasTruncated (splitOf this input) = false ->
  buildHistory JSON_stringify this input context w
  = (Returned (BuildHistoryInput.allHistory input
               ++ pendingMessage (BuildHistoryInput.newUserMessage input)),
     w, []).
Proof.
  unfold splitOf. intros Hnot. unfold buildHistory, bind.
  rewrite splitMessages_run, Hnot. cbn [negb]. unfold ret, debugLine.
  rewrite pushNewUserMessage_pending. reflexivity.
Qed.

Lemma buildHistory_fallback this input context w :
  wasTruncated (splitOf this input) = true ->
  firstPair (splitOf this input) = [] ->
  buildHistory JSON_stringify this input context w
  = (Returned (truncateToTokenBudget (BuildHistoryInput.allHistory input)
                 (budgetConfigOf this input)
               ++ pendingMessage (BuildHistoryInput.newUserMessage input)),
     w,
     debugLine this true
     ++ debugLine this
          (length (truncateToTokenBudget
                     (BuildHistoryInput.allHistory input)
                     (budgetConfigOf this input))
           <? length (BuildHistoryInput.allHistory input))%nat).
Proof.
  unfold splitOf. intros Htrunc Hpair. unfold buildHistory, bind.
  rewrite splitMessages_run, Htrunc, Hpair. cbn [negb length Nat.eqb].
  rewrite truncateMessages_run. unfold ret.
  rewrite pushNewUserMessage_pending, app_nil_r. reflexivity.
Qed.

Lemma buildHistory_three_tier this input ctx w :
  wasTruncated (splitOf this input) = true ->
  firstPair (splitOf this input) <> [] ->
  buildHistory JSON_stringify this input (Some ctx) w
  = match buildSummaryMessage JSON_stringify this
            (droppedMessages (splitOf this input)) ctx
            (BuildHistoryInput.summarizationContext input) w with
    | (Returned summaryMessage, w', evs) =>
        (Returned (assembled this input summaryMessage), w',
         debugLine this true ++ evs)
    | (Raised e, w', evs) => (Raised e, w', debugLine this true ++ evs)
    end.
Proof.
  unfold assembled, splitOf. intros Htrunc Hpair. unfold buildHistory, bind.
  rewrite splitMessages_run, Htrunc. cbn [negb].
  destruct (firstPair _) as [|m0 pair] eqn:Hfp; [contradiction|].
  cbn [length Nat.eqb].
  destruct (buildSummaryMessage _ _ _ _ _ _) as [[[sm|e] w'] evs];
    [|reflexivity].
  unfold ret. rewrite pushNewUserMessage_pending, app_nil_r.
  rewrite <- !app_assoc. reflexivity.
Qed.

Lemma buildHistory_three_tier_no_context this input w :
  wasTruncated (splitOf this input) = true ->
  firstPair (splitOf this input) <> [] ->
  buildHistory JSON_stringify this input None w
  = (Returned (assembled this input None), w, debugLine this true).
Proof.
  unfold assembled, splitOf. intros Htrunc Hpair. unfold buildHistory, bind.
  rewrite splitMessages_run, Htrunc. cbn [negb].
  destruct (firstPair _) as [|m0 pair] eqn:Hfp; [contradiction|].
  cbn [length Nat.eqb]. unfold ret.
  rewrite pushNewUserMessage_pending, !app_nil_r.
  rewrite <- !app_assoc. reflexivity.
Qed.

Lemma newlyDropped_none dropped : newlyDropped None dropped = dropped.
Proof. reflexivity. Qed.

(** Summary resolution always returns, along one of these runs. *)
Lemma buildSummaryMessage_run this dropped ctx sc w :
  exists summaryMessage w' evs,
    buildSummaryMessage JSON_stringify this dropped ctx sc w
    = (Returned summaryMessage, w', evs)
    /\ SummaryRun JSON_stringify this dropped ctx sc w summaryMessage w' evs.
Proof.
  assert (Hskip :
            dropped = [] \/ Self.summarizationEnabled this = false
            \/ Self.storage this = None \/ Self.summarizer this = None ->
            exists summaryMessage w' evs,
              buildSummaryMessage JSON_stringify this dropped ctx sc w
              = (Returned summaryMessage, w', evs)
              /\ SummaryRun JSON_stringify this dropped ctx sc w summaryMessage w' evs).
  { intros H. rewrite (buildSummaryMessage_skipped _ _ _ _ _ H).
    eexists _, _, _. split; [reflexivity|]. apply RunSkipped, H. }
  destruct dropped as [|m0 rest] eqn:Hd; [apply Hskip; left; reflexivity|].
  destruct (Self.summarizationEnabled this) eqn:Hen;
    [|apply Hskip; right; left; reflexivity].
  destruct (Self.storage this) as [st|] eqn:Hst;
    [|apply Hskip; right; right; left; reflexivity].
  destruct (Self.summarizer this) as [su|] eqn:Hsu;
    [|apply Hskip; do 3 right; reflexivity].
  clear Hskip. rewrite <- Hd.
  assert (Hc : consults this st su dropped)
    by (repeat split; try assumption; rewrite Hd; discriminate).
  clear Hd m0 rest.
  destruct (readSummary st ctx w) as [o w1] eqn:Hread.
  destruct o as [existing|e|e].
  2,3: rewrite (buildSummaryMessage_read_failed _ _ _ _ _ _ _ _ _ Hc Hread)
         by discriminate;
       eexists _, _, _; (split; [reflexivity|]);
       eapply RunReadFailed; eauto; discriminate.
  destruct (newlyDropped existing dropped) as [|n0 newly] eqn:Hnew.
  - destruct existing as [r|].
    + rewrite (buildSummaryMessage_cache_hit _ _ _ _ _ _ _ _ _ Hc Hread Hnew).
      eexists _, _, _. split; [reflexivity|]. eapply RunCacheHit; eauto.
    + rewrite newlyDropped_none in Hnew. destruct Hc as (_ & _ & _ & Hne).
      contradiction.
  - assert (Hnonempty : newlyDropped existing dropped <> [])
      by (rewrite Hnew; discriminate).
    clear Hnew.
    destruct (summarize su (messagesTextOf JSON_stringify (newlyDropped existing dropped))
                (summaryOf existing) sc w1) as [o w2] eqn:Hsum.
    destruct o as [text|e|e].
    2,3: rewrite (buildSummaryMessage_engine_failed
                    _ _ _ _ _ _ _ _ _ _ _ Hc Hread Hnonempty Hsum)
           by discriminate;
         eexists _, _, _; (split; [reflexivity|]);
         eapply RunEngineFailed; eauto; discriminate.
    destruct (truthy_opt_string text) eqn:Htext.
    + destruct text as [t|]; [|discriminate]. simpl in Htext.
      destruct (upsertSummary st (upsertDataOf ctx dropped t) w2)
        as [u w3] eqn:Hup.
      rewrite (buildSummaryMessage_engine_ok
                 _ _ _ _ _ _ _ _ _ _ _ _ _
                 Hc Hread Hnonempty Hsum Htext Hup).
      eexists _, _, _. split; [reflexivity|]. eapply RunEngineOk; eauto.
    + rewrite (buildSummaryMessage_engine_null
                 _ _ _ _ _ _ _ _ _ _ _ Hc Hread Hnonempty Hsum Htext).
      eexists _, _, _. split; [reflexivity|]. eapply RunEngineNull; eauto.
Qed.

Lemma buildSummaryMessage_returns this dropped ctx sc w :
  exists summaryMessage w' evs,
    buildSummaryMessage JSON_stringify this dropped ctx sc w
    = (Returned summaryMessage, w', evs).
Proof.
  destruct (buildSummaryMessage_run this dropped ctx sc w)
    as (sm & w' & evs & Hrun & _).
  eauto.
Qed.

(** C7. Whatever the storage and the summarizer do when called
    (resolve with a value or with null, reject, or throw; a failing
    write included), [buildHistory] returns a list of messages: the
    call never ends by raising what a collaborator raised. *)
Theorem C7_buildHistory_never_raises
    this input (context : option MemoryContext.t) w :
  exists (messages : list Message) (w' : World)
         (evs : list (Event Payload Err)),
    buildHistory JSON_stringify this input context w
    = (Returned messages, w', evs).
Proof.
  destruct (wasTruncated (splitOf this input)) eqn:Htrunc;
    [|rewrite buildHistory_no_truncation by exact Htrunc; eauto].
  destruct (firstPair (splitOf this input)) as [|m0 pair] eqn:Hpair;
    [rewrite buildHistory_fallback by assumption; eauto|].
  assert (Hne : firstPair (splitOf this input) <> [])
    by (rewrite Hpair; discriminate).
  destruct context as [ctx|];
    [|rewrite buildHistory_three_tier_no_context by assumption; eauto].
  rewrite buildHistory_three_tier by assumption.
  destruct (buildSummaryMessage_returns this
              (droppedMessages (splitOf this input)) ctx
              (BuildHistoryInput.summarizationContext input) w)
    as (sm & w' & evs & Hrun).
  rewrite Hrun. eauto.
Qed.

(** C5. When the split reports truncation with an empty first pair,
    [buildHistory] returns the sliding-window truncation of the whole
    original history under the budget parameters given to the split,
    followed by the pending new-user message when one was supplied,
    and calls neither the storage nor the summarizer. *)
Theorem C5_fallback_is_sliding_window
    this input (context : option MemoryContext.t) w :
  let history := BuildHistoryInput.allHistory input in
  let config := splitConfigOf this input in
  wasTruncated (splitForThreeTierMemory history config) = true ->
  firstPair (splitForThreeTierMemory history config) = [] ->
  exists evs : list (Event Payload Err),
    buildHistory JSON_stringify this input context w
    = (Returned (truncateToTokenBudget history (budgetConfig config)
                 ++ pendingMessage (BuildHistoryInput.newUserMessage input)),
       w, evs)
    /\ collaboratorCalls evs = [].
Proof.
  intros history config Htrunc Hpair.
  rewrite (buildHistory_fallback this input context w Htrunc Hpair).
  eexists. split; [reflexivity|].
  rewrite collaboratorCalls_app, !collaboratorCalls_debugLine. reflexivity.
Qed.

Lemma split_of_fitting_history (messages : list Message)
    (config : ThreeTierConfig) :
  0 < calculateHistoryBudget config ->
  sumTokens messages (charsPerToken config)
  <= calculateHistoryBudget config ->
  splitForThreeTierMemory messages config = noTruncation messages
  \/ splitForThreeTierMemory messages config = notApplicable messages.
Proof.
  intros Hpos Hfit. unfold splitForThreeTierMemory.
  destruct (_ <? _)%nat; [left; reflexivity|].
  destruct (calculateHistoryBudget config <=? 0) eqn:Hle; [lia|].
  destruct (messages !! 0%nat); [|left; reflexivity].
  destruct (messages !! 1%nat); [|left; reflexivity].
  destruct (_ >=? _); [right; reflexivity|].
  destruct (sumTokens messages (charsPerToken config)
            <=? calculateHistoryBudget config) eqn:Hall;
    [left; reflexivity|lia].
Qed.

(** C3, as amended. For a non-empty history whose estimated total is
    at most the available budget, and provided that budget is positive
    or the history has fewer than two messages, [buildHistory] returns
    exactly the original history, followed by the pending new-user
    message when one was supplied, and calls neither the storage nor
    the summarizer. *)
Theorem C3_fitting_history_returned
    this input (context : option MemoryContext.t) w :
  let history := BuildHistoryInput.allHistory input in
  let config := splitConfigOf this input in
  history <> [] ->
  sumTokens history (charsPerToken config) <= calculateHistoryBudget config ->
  0 < calculateHistoryBudget config \/ (length history < 2)%nat ->
  exists evs : list (Event Payload Err),
    buildHistory JSON_stringify this input context w
    = (Returned (history
                 ++ pendingMessage (BuildHistoryInput.newUserMessage input)),
       w, evs)
    /\ collaboratorCalls evs = [].
Proof.
  intros history config _ Hfit Hcase.
  assert (Hsplit :
            splitOf this input = noTruncation history
            \/ (0 < calculateHistoryBudget config
                /\ splitOf this input = notApplicable history)).
  { destruct (le_lt_dec 2 (length history)) as [Hge|Hlt].
    - destruct Hcase as [Hpos|Hlt]; [|lia].
      destruct (split_of_fitting_history history config Hpos Hfit) as [H|H];
        [left|right; split; [exact Hpos|]]; exact H.
    - left. unfold splitOf, splitForThreeTierMemory.
      fold history.
      destruct (Nat.ltb_spec (length history) MIN_MESSAGES_FOR_FIRST_PAIR)
        as [_|Hge]; [reflexivity|].
      unfold MIN_MESSAGES_FOR_FIRST_PAIR in Hge. lia. }
  destruct Hsplit as [Hno | [Hpos Hna]].
  - rewrite buildHistory_no_truncation by (rewrite Hno; reflexivity).
    eexists. split; reflexivity.
  - rewrite buildHistory_fallback by (rewrite Hna; reflexivity).
    fold history. change (budgetConfigOf this input) with (budgetConfig config).
    rewrite (truncateToTokenBudget_positive history _ Hpos).
    rewrite (slidingWindow_all _ _ _ Hfit).
    eexists. split; [reflexivity|].
    rewrite collaboratorCalls_app, !collaboratorCalls_debugLine. reflexivity.
Qed.

(** C10. An empty string as [newUserMessage] is the same as no pending
    message: the whole run of [buildHistory] (returned list, calls
    made, state left) is the one of the same input without the field,
    nothing is deducted from the available budget, and nothing is
    appended to an assembled list. *)
Theorem C10_empty_new_user_message
    this (history : list Message) (contextWindow maxOutputTokens : Z)
    (systemMessage : option string) sc
    (context : option MemoryContext.t) w :
  let withEmpty :=
    {| BuildHistoryInput.allHistory := history;
       BuildHistoryInput.contextWindow := contextWindow;
       BuildHistoryInput.maxOutputTokens := maxOutputTokens;
       BuildHistoryInput.systemMessage := systemMessage;
       BuildHistoryInput.newUserMessage := Some EmptyString;
       BuildHistoryInput.summarizationContext := sc |} in
  let without :=
    {| BuildHistoryInput.allHistory := history;
       BuildHistoryInput.contextWindow := contextWindow;
       BuildHistoryInput.maxOutputTokens := maxOutputTokens;
       BuildHistoryInput.systemMessage := systemMessage;
       BuildHistoryInput.newUserMessage := None;
       BuildHistoryInput.summarizationContext := sc |} in
  buildHistory JSON_stringify this withEmpty context w
  = buildHistory JSON_stringify this without context w
  /\ calculateHistoryBudget (splitConfigOf this withEmpty)
     = calculateHistoryBudget (splitConfigOf this without)
  /\ (forall messages : list Message,
         pushNewUserMessage messages (Some EmptyString) = messages).
Proof.
  intros withEmpty without.
  assert (Hbudget :
            calculateHistoryBudget (splitConfigOf this withEmpty)
            = calculateHistoryBudget (splitConfigOf this without))
    by reflexivity.
  assert (Hsplit : splitOf this withEmpty = splitOf this without).
  { unfold splitOf, splitForThreeTierMemory. rewrite Hbudget. reflexivity. }
  assert (Htrunc :
            truncateToTokenBudget (BuildHistoryInput.allHistory withEmpty)
              (budgetConfigOf this withEmpty)
            = truncateToTokenBudget (BuildHistoryInput.allHistory without)
                (budgetConfigOf this without)).
  { unfold truncateToTokenBudget.
    change (calculateHistoryBudget (budgetConfigOf this withEmpty))
      with (calculateHistoryBudget (splitConfigOf this withEmpty)).
    rewrite Hbudget. reflexivity. }
  split; [|split; [exact Hbudget|reflexivity]].
  destruct (wasTruncated (splitOf this without)) eqn:Hwas.
  - destruct (firstPair (splitOf this without)) as [|m0 pair] eqn:Hpair.
    + rewrite !buildHistory_fallback by (rewrite ?Hsplit; assumption).
      rewrite Htrunc. reflexivity.
    + assert (Hne : firstPair (splitOf this without) <> [])
        by (rewrite Hpair; discriminate).
      destruct context as [ctx|].
      * rewrite !buildHistory_three_tier by (rewrite ?Hsplit; assumption).
        unfold assembled. rewrite Hsplit. reflexivity.
      * rewrite !buildHistory_three_tier_no_context
          by (rewrite ?Hsplit; assumption).
        unfold assembled. rewrite Hsplit. reflexivity.
  - rewrite !buildHistory_no_truncation by (rewrite ?Hsplit; assumption).
    reflexivity.
Qed.

Lemma upsertCalls_with_warnLine this (evs : list (Event Payload Err)) :
  upsertCalls (evs ++ warnLine this) = upsertCalls evs.
Proof.
  unfold upsertCalls, warnLine. rewrite List.filter_app.
  destruct (Self.logger this); simpl; apply app_nil_r.
Qed.

(** C6, as amended. Inside summary resolution, with a non-empty dropped
    tier, summarization enabled and both collaborators configured:
    when the read of the stored record rejects or throws, no summary
    message is produced; when the engine resolves with null (or with an
    empty text), the stored summary is returned as the summary message
    if a record exists and nothing otherwise; when the engine rejects or
    throws, no summary message is produced, whether or not a record
    exists. In each of these cases the call returns normally and no
    write to the storage is attempted. *)
Theorem C6_failure_fallbacks this st su dropped ctx sc w :
  consults this st su dropped ->
  (forall o w1,
      readSummary st ctx w = (o, w1) ->
      (forall existing, o <> Resolved existing) ->
      exists evs,
        buildSummaryMessage JSON_stringify this dropped ctx sc w
        = (Returned None, w1, evs)
        /\ upsertCalls evs = [])
  /\ (forall existing w1 o w2,
      readSummary st ctx w = (Resolved existing, w1) ->
      newlyDropped existing dropped <> [] ->
      summarize su (messagesTextOf JSON_stringify (newlyDropped existing dropped))
        (summaryOf existing) sc w1 = (o, w2) ->
      (forall text,
          o = Resolved text -> truthy_opt_string text = false ->
          exists evs,
            buildSummaryMessage JSON_stringify this dropped ctx sc w
            = (Returned
                 match existing with
                 | Some r =>
                     Some (summaryMessageOf (MemorySummaryRecord.summary r))
                 | None => None
                 end,
               w2, evs)
            /\ upsertCalls evs = [])
      /\ ((forall text, o <> Resolved text) ->
          exists evs,
            buildSummaryMessage JSON_stringify this dropped ctx sc w
            = (Returned None, w2, evs)
            /\ upsertCalls evs = [])).
Proof.
  intros Hc. split.
  - intros o w1 Hread Hfail.
    rewrite (buildSummaryMessage_read_failed _ _ _ _ _ _ _ _ _ Hc Hread Hfail).
    eexists. split; [reflexivity|].
    change (evRead ctx o :: warnLine this)
      with ([evRead ctx o] ++ warnLine this).
    rewrite upsertCalls_with_warnLine. reflexivity.
  - intros existing w1 o w2 Hread Hnew Hsum. split.
    + intros text -> Hnull.
      rewrite (buildSummaryMessage_engine_null
                 _ _ _ _ _ _ _ _ _ _ _ Hc Hread Hnew Hsum Hnull).
      eexists. split; [destruct existing; reflexivity|reflexivity].
    + intros Hfail.
      rewrite (buildSummaryMessage_engine_failed
                 _ _ _ _ _ _ _ _ _ _ _ Hc Hread Hnew Hsum Hfail).
      eexists. split; [reflexivity|].
      rewrite upsertCalls_with_warnLine. reflexivity.
Qed.

(** *** The summarized-through marker *)

Lemma newlyDropped_decode (r : MemorySummaryRecord.t) dropped :
  newlyDropped (Some r) dropped
  = drop (Z.to_nat (Z.max (MemorySummaryRecord.summarizedThroughIndex r - 1) 0))
      dropped.
Proof.
  unfold newlyDropped.
  destruct (Z.gtb_spec (MemorySummaryRecord.summarizedThroughIndex r) 1)
    as [Hgt|Hle].
  - rewrite Z.max_l by lia.
    destruct (Z.ltb_spec (MemorySummaryRecord.summarizedThroughIndex r - 1)
                (Z.of_nat (length dropped))) as [Hlt|Hge]; [reflexivity|].
    rewrite drop_ge by lia. reflexivity.
  - rewrite Z.max_r by lia. reflexivity.
Qed.

Lemma newlyDropped_covered (r : MemorySummaryRecord.t) dropped :
  Z.of_nat (length dropped)
  = Z.max (MemorySummaryRecord.summarizedThroughIndex r - 1) 0 ->
  newlyDropped (Some r) dropped = [].
Proof.
  intros Hlen. rewrite newlyDropped_decode, <- Hlen, Nat2Z.id.
  apply drop_all.
Qed.

Lemma debugLine_only this flag (ev : Event Payload Err) :
  In ev (debugLine this flag) -> ev = EvLogDebug.
Proof.
  unfold debugLine. destruct (flag && _); simpl; [|contradiction].
  intros [<-|[]]. reflexivity.
Qed.

Lemma warnLine_only this (ev : Event Payload Err) :
  In ev (warnLine this) -> ev = EvLogWarn.
Proof.
  unfold warnLine. destruct (Self.logger this); simpl; [|contradiction].
  intros [<-|[]]. reflexivity.
Qed.

Lemma engineCalls_debugLine this flag :
  engineCalls (debugLine this flag) = [].
Proof. unfold debugLine. destruct (flag && _); reflexivity. Qed.

(** A successful engine call inside summary resolution is followed by
    a write of the new text with marker [length dropped + 1]. *)
Lemma SummaryRun_engine_success
    this dropped ctx sc w sm w' evs text old sc' t :
  SummaryRun JSON_stringify this dropped ctx sc w sm w' evs ->
  In (EvSummarize text old sc' (Resolved (Some t))) evs ->
  truthy_string t = true ->
  exists st su w2 u,
    consults this st su dropped
    /\ upsertSummary st (upsertDataOf ctx dropped t) w2 = (u, w')
    /\ sm = match u with
            | Thrown _ => None
            | _ => Some (summaryMessageOf t)
            end
    /\ upsertCalls evs = [EvUpsertSummary (upsertDataOf ctx dropped t) u].
Proof.
  intros HR Hin Ht. inversion HR; subst; unfold evRead in Hin.
  - destruct Hin.
  - destruct Hin as [Hin|Hin]; [discriminate|].
    apply warnLine_only in Hin. discriminate.
  - destruct Hin as [Hin|[]]. discriminate.
  - destruct Hin as [Hin|[Hin|Hin]]; [discriminate| |].
    + injection Hin as _ _ _ Ho. exfalso. eapply H3. exact Ho.
    + apply warnLine_only in Hin. discriminate.
  - destruct Hin as [Hin|[Hin|[]]]; [discriminate|].
    injection Hin as _ _ _ Ho. subst text0. simpl in H3. congruence.
  - destruct Hin as [Hin|[Hin|[Hin|Hin]]]; [discriminate| |discriminate|].
    + injection Hin as _ _ _ Ho. subst t0.
      exists st, su, w2, u.
      split; [assumption|]. split; [assumption|]. split; [reflexivity|].
      destruct u; unfold upsertCalls, warnLine;
        destruct (Self.logger this); reflexivity.
    + destruct u; [destruct Hin| |]; apply warnLine_only in Hin; discriminate.
Qed.

Lemma buildHistory_repeat_no_engine
    this st input (context : option MemoryContext.t) w res w1 evs1 :
  Self.storage this = Some st ->
  persists st ->
  buildHistory JSON_stringify this input context w = (res, w1, evs1) ->
  (exists text old sc' t,
      In (EvSummarize text old sc' (Resolved (Some t))) evs1
      /\ truthy_string t = true) ->
  exists w2 evs2,
    buildHistory JSON_stringify this input context w1 = (res, w2, evs2)
    /\ engineCalls evs2 = [].
Proof.
  intros Hst Hp Hrun (text & old & sc' & t & Hin & Ht).
  destruct (wasTruncated (splitOf this input)) eqn:Htr.
  2: { rewrite buildHistory_no_truncation in Hrun by exact Htr.
       injection Hrun as <- <- <-. destruct Hin. }
  destruct (firstPair (splitOf this input)) as [|m0 pair] eqn:Hfp.
  { rewrite buildHistory_fallback in Hrun by assumption.
    injection Hrun as <- <- <-.
    apply in_app_or in Hin.
    destruct Hin as [Hin|Hin]; apply debugLine_only in Hin; discriminate. }
  assert (Hne : firstPair (splitOf this input) <> [])
    by (rewrite Hfp; discriminate).
  clear Hfp m0 pair.
  destruct context as [ctx|].
  2: { rewrite buildHistory_three_tier_no_context in Hrun by assumption.
       injection Hrun as <- <- <-.
       apply debugLine_only in Hin. discriminate. }
  rewrite buildHistory_three_tier in Hrun by assumption.
  destruct (buildSummaryMessage_run this
              (droppedMessages (splitOf this input)) ctx
              (BuildHistoryInput.summarizationContext input) w)
    as (sm & w' & evs & Hb & HR).
  rewrite Hb in Hrun. injection Hrun as <- <- <-.
  apply in_app_or in Hin.
  destruct Hin as [Hin|Hin]; [apply debugLine_only in Hin; discriminate|].
  destruct (SummaryRun_engine_success _ _ _ _ _ _ _ _ _ _ _ _ HR Hin Ht)
    as (st' & su & w2 & u & Hc & Hup & Hsm & _).
  assert (st' = st) as ->
    by (destruct Hc as (Hst' & _); congruence).
  destruct (Hp ctx (droppedMessages (splitOf this input)) t w2)
    as (wp & r & w3 & Hup' & Hread & Hsummary & Hmarker).
  rewrite Hup' in Hup. injection Hup as <- <-. subst sm.
  assert (Hnew : newlyDropped (Some r) (droppedMessages (splitOf this input))
                 = []).
  { apply newlyDropped_covered. rewrite Hmarker. lia. }
  rewrite buildHistory_three_tier by assumption.
  rewrite (buildSummaryMessage_cache_hit _ _ _ _ _ _ _ _ _ Hc Hread Hnew).
  rewrite Hsummary.
  eexists _, _. split; [reflexivity|].
  unfold engineCalls. rewrite List.filter_app.
  fold (engineCalls (debugLine this true)).
  rewrite engineCalls_debugLine. reflexivity.
Qed.

(** C4, as amended. A stored record with marker [m] stands for
    [max(m - 1, 0)] leading dropped messages already summarized: the
    messages still to summarize are the dropped tier without that many
    leading messages. When summary resolution consults the store (the
    dropped tier is not empty, summarization is enabled and both
    collaborators are configured), a record exists and the length of the
    dropped tier equals that count, the stored summary text is returned
    and the engine is not called. When the engine was called and gave a
    non-empty text, the one write that follows carries that text and the
    marker [length dropped + 1]; so, with a storage that persists, the
    same [buildHistory] call repeated at once returns the same list and
    makes no engine call. *)
Theorem C4_marker_round_trip :
  (forall (r : MemorySummaryRecord.t) dropped,
      newlyDropped (Some r) dropped
      = drop (Z.to_nat
                (Z.max (MemorySummaryRecord.summarizedThroughIndex r - 1) 0))
          dropped)
  /\ (forall this st su dropped ctx sc w (r : MemorySummaryRecord.t) w1,
      consults this st su dropped ->
      readSummary st ctx w = (Resolved (Some r), w1) ->
      Z.of_nat (length dropped)
      = Z.max (MemorySummaryRecord.summarizedThroughIndex r - 1) 0 ->
      exists evs,
        buildSummaryMessage JSON_stringify this dropped ctx sc w
        = (Returned (Some (summaryMessageOf (MemorySummaryRecord.summary r))),
           w1, evs)
        /\ engineCalls evs = [])
  /\ (forall this dropped ctx sc w sm w' evs text old sc' (t : string),
      buildSummaryMessage JSON_stringify this dropped ctx sc w
      = (Returned sm, w', evs) ->
      In (EvSummarize text old sc' (Resolved (Some t))) evs ->
      truthy_string t = true ->
      exists data u,
        upsertCalls evs = [EvUpsertSummary data u]
        /\ UpsertSummaryData.summarizedThroughIndex data
           = Z.of_nat (length dropped) + 1
        /\ UpsertSummaryData.summary data = t)
  /\ (forall this st input (context : option MemoryContext.t) w res w1 evs1,
      Self.storage this = Some st ->
      persists st ->
      buildHistory JSON_stringify this input context w = (res, w1, evs1) ->
      (exists text old sc' (t : string),
          In (EvSummarize text old sc' (Resolved (Some t))) evs1
          /\ truthy_string t = true) ->
      exists w2 evs2,
        buildHistory JSON_stringify this input context w1 = (res, w2, evs2)
        /\ engineCalls evs2 = []).
Proof.
  split; [exact newlyDropped_decode|].
  split; [|split].
  - intros this st su dropped ctx sc w r w1 Hc Hread Hlen.
    rewrite (buildSummaryMessage_cache_hit _ _ _ _ _ _ _ _ _ Hc Hread
               (newlyDropped_covered r dropped Hlen)).
    eexists. split; reflexivity.
  - intros this dropped ctx sc w sm w' evs text old sc' t Hrun Hin Ht.
    destruct (buildSummaryMessage_run this dropped ctx sc w)
      as (sm0 & w0 & evs0 & Hrun0 & HR).
    rewrite Hrun in Hrun0. injection Hrun0 as <- <- <-.
    destruct (SummaryRun_engine_success _ _ _ _ _ _ _ _ _ _ _ _ HR Hin Ht)
      as (st & su & w2 & u & _ & _ & _ & Hups).
    exists (upsertDataOf ctx dropped t), u.
    split; [exact Hups|]. split; reflexivity.
  - exact buildHistory_repeat_no_engine.
Qed.

End OrchestratorFacts.


(* ================================================================== *)
(** ** The properties on the scenarios *)
(* ================================================================== *)

Lemma memoryStorage_persists : persists Stub.memoryStorage.
Proof.
  intros ctx dropped t w. eexists _, _, _.
  split; [reflexivity|].
  split; [unfold readSummary; simpl; rewrite lookup_insert_eq; reflexivity|].
  split; reflexivity.
Qed.

Lemma stub_consults storage outcome summaryTokens :
  consults (Stub.managerWith storage outcome summaryTokens) storage
    (Stub.constSummarizer outcome) Stub.droppedFive.
Proof. repeat split; [reflexivity..|discriminate]. Defined.

(** Three messages of 750 tokens in all under a budget of 1599 tokens. *)
Lemma C3_fitting_history_returned_witness :
  exists evs,
    ThreeTierMemoryManager.buildHistory Stub.stringify
      (Stub.manager (Resolved (Some "S")) 100)
      (Stub.input Scenario.threeLong 2000 200 (Some "hi"))
      (Some Stub.context) ∅
    = (Returned (Scenario.threeLong ++ [userMessage "hi"]), ∅, evs)
    /\ collaboratorCalls evs = [].
Proof.
  apply (C3_fitting_history_returned Stub.stringify
           (Stub.manager (Resolved (Some "S")) 100)
           (Stub.input Scenario.threeLong 2000 200 (Some "hi"))
           (Some Stub.context) ∅).
  - discriminate.
  - vm_compute. discriminate.
  - left. vm_compute. reflexivity.
Defined.

(** Two image-only messages under a budget of exactly 0 tokens: the
    total, 0, does not exceed the budget, and [buildHistory] returns the
    empty list instead of the history. *)
Lemma C3_counterexample :
  let history := [Scenario.imageMsg user; Scenario.imageMsg assistant] in
  let this := Stub.manager (Resolved (Some "S")) 100 in
  let input := Stub.input history 400 200 None in
  history <> []
  /\ calculateHistoryBudget (splitConfigOf this input) = 0
  /\ sumTokens history (charsPerToken (splitConfigOf this input))
     <= calculateHistoryBudget (splitConfigOf this input)
  /\ ThreeTierMemoryManager.buildHistory Stub.stringify this input
       (Some Stub.context) ∅
     = (Returned [], ∅, [])
  /\ ~ (exists evs,
         ThreeTierMemoryManager.buildHistory Stub.stringify this input
           (Some Stub.context) ∅
         = (Returned (history ++ pendingMessage None), ∅, evs)).
Proof.
  split; [discriminate|]. split; [reflexivity|].
  split; [vm_compute; discriminate|].
  split; [vm_compute; reflexivity|].
  intros [evs Hrun]. vm_compute in Hrun. discriminate.
Qed.

(** A first pair of 600 tokens under a budget of 599 tokens: the split
    signals the fallback and the last two messages, 550 tokens, fit. *)
Lemma C5_fallback_is_sliding_window_witness :
  let history :=
    [Scenario.msg user 1200; Scenario.msg assistant 1200;
     Scenario.msg user 1000] in
  exists evs,
    ThreeTierMemoryManager.buildHistory Stub.stringify
      (Stub.manager (Resolved (Some "S")) 100)
      (Stub.input history 1000 200 (Some "hi"))
      (Some Stub.context) ∅
    = (Returned (drop 1 history ++ [userMessage "hi"]), ∅, evs)
    /\ collaboratorCalls evs = [].
Proof.
  intros history.
  apply (C5_fallback_is_sliding_window Stub.stringify
           (Stub.manager (Resolved (Some "S")) 100)
           (Stub.input history 1000 200 (Some "hi"))
           (Some Stub.context) ∅).
  - vm_compute. reflexivity.
  - vm_compute. reflexivity.
Defined.

(** Five dropped messages and a stored record that covers two of them:
    an engine that answers null leaves the stored summary, an engine
    that throws and a read that rejects leave no summary message. *)
Lemma C6_failure_fallbacks_witness :
  (exists evs,
      ThreeTierMemoryManager.buildSummaryMessage Stub.stringify
        (Stub.manager (Resolved None) 100) Stub.droppedFive Stub.context None
        (Stub.storeWith "old" 3)
      = (Returned (Some (ThreeTierMemoryManager.summaryMessageOf "old")),
         Stub.storeWith "old" 3, evs)
      /\ upsertCalls evs = [])
  /\ (exists evs,
      ThreeTierMemoryManager.buildSummaryMessage Stub.stringify
        (Stub.manager (Rejected tt) 100) Stub.droppedFive Stub.context None ∅
      = (Returned None, ∅, evs)
      /\ upsertCalls evs = [])
  /\ (exists evs,
      ThreeTierMemoryManager.buildSummaryMessage Stub.stringify
        (Stub.managerWith Stub.failingStorage (Resolved (Some "S")) 100)
        Stub.droppedFive Stub.context None (Stub.storeWith "old" 3)
      = (Returned None, Stub.storeWith "old" 3, evs)
      /\ upsertCalls evs = []).
Proof.
  split; [|split].
  - destruct (C6_failure_fallbacks Stub.stringify _ _ _ _ Stub.context None
                (Stub.storeWith "old" 3)
                (stub_consults Stub.memoryStorage (Resolved None) 100))
      as [_ Hengine].
    destruct (Hengine (Some (Stub.storedRecord "old" 3))
                (Stub.storeWith "old" 3) (Resolved None)
                (Stub.storeWith "old" 3))
      as [Hnull _].
    + vm_compute. reflexivity.
    + vm_compute. discriminate.
    + reflexivity.
    + apply (Hnull None); reflexivity.
  - destruct (C6_failure_fallbacks Stub.stringify _ _ _ _ Stub.context None ∅
                (stub_consults Stub.memoryStorage (Rejected tt) 100))
      as [_ Hengine].
    destruct (Hengine None ∅ (Rejected tt) ∅) as [_ Hfail].
    + vm_compute. reflexivity.
    + vm_compute. discriminate.
    + reflexivity.
    + apply Hfail. discriminate.
  - destruct (C6_failure_fallbacks Stub.stringify _ _ _ _ Stub.context None
                (Stub.storeWith "old" 3)
                (stub_consults Stub.failingStorage (Resolved (Some "S")) 100))
      as [Hread _].
    apply (Hread (Rejected tt)); [reflexivity|discriminate].
Defined.

(** A stored record exists and the engine throws: summary resolution
    returns no summary message, not the stored summary, and
    [buildHistory] assembles the first pair and the recent tier alone. *)
Lemma C6_counterexample :
  readSummary Stub.memoryStorage Stub.context (Stub.storeWith "old" 3)
  = (Resolved (Some (Stub.storedRecord "old" 3)), Stub.storeWith "old" 3)
  /\ fst (summarize (Stub.constSummarizer (Thrown tt))
            (messagesTextOf Stub.stringify (drop 2 Stub.droppedFive))
            (Some "old") None (Stub.storeWith "old" 3))
     = Thrown tt
  /\ fst (fst (ThreeTierMemoryManager.buildSummaryMessage Stub.stringify
                 (Stub.manager (Thrown tt) 100) Stub.droppedFive
                 Stub.context None (Stub.storeWith "old" 3)))
     = Returned None
  /\ Returned (Err := unit) (@None Message)
     <> Returned (Some (ThreeTierMemoryManager.summaryMessageOf "old"))
  /\ fst (fst (ThreeTierMemoryManager.buildHistory Stub.stringify
                 (Stub.manager (Thrown tt) 100)
                 (Stub.input Scenario.tenMessages 1000 200 None)
                 (Some Stub.context) (Stub.storeWith "old" 3)))
     = Returned (take 2 Scenario.tenMessages ++ drop 7 Scenario.tenMessages).
Proof.
  split; [vm_compute; reflexivity|].
  split; [reflexivity|].
  split; [vm_compute; reflexivity|].
  split; [discriminate|].
  vm_compute. reflexivity.
Qed.

(** The ten-message scenario: a record with marker 6 covers the five
    dropped messages, so the stored text is returned without the engine;
    a first call on an empty store summarizes, writes marker 6, and the
    same call repeated makes no engine call. *)
Lemma C4_marker_round_trip_witness :
  (exists evs,
      ThreeTierMemoryManager.buildSummaryMessage Stub.stringify
        (Stub.manager (Resolved (Some "S")) 100) Stub.droppedFive
        Stub.context None (Stub.storeWith "old" 6)
      = (Returned (Some (ThreeTierMemoryManager.summaryMessageOf "old")),
         Stub.storeWith "old" 6, evs)
      /\ engineCalls evs = [])
  /\ (exists data u,
      upsertCalls
        (snd (ThreeTierMemoryManager.buildSummaryMessage Stub.stringify
                (Stub.manager (Resolved (Some "S")) 100) Stub.droppedFive
                Stub.context None ∅))
      = [EvUpsertSummary data u]
      /\ UpsertSummaryData.summarizedThroughIndex data = 6
      /\ UpsertSummaryData.summary data = "S")
  /\ (exists w2 evs2,
      ThreeTierMemoryManager.buildHistory Stub.stringify
        (Stub.manager (Resolved (Some "S")) 100)
        (Stub.input Scenario.tenMessages 1000 200 None)
        (Some Stub.context) (Stub.storeWith "S" 6)
      = (Returned
           (take 2 Scenario.tenMessages
            ++ [ThreeTierMemoryManager.summaryMessageOf "S"]
            ++ drop 7 Scenario.tenMessages),
         w2, evs2)
      /\ engineCalls evs2 = []).
Proof.
  destruct (C4_marker_round_trip (World := Stub.Store) (Payload := unit)
              (Err := unit) Stub.stringify)
    as (_ & Hhit & Hwrite & Hrepeat).
  split; [|split].
  - apply (Hhit _ _ _ _ Stub.context None (Stub.storeWith "old" 6)
             (Stub.storedRecord "old" 6) (Stub.storeWith "old" 6)
             (stub_consults Stub.memoryStorage (Resolved (Some "S")) 100)).
    + vm_compute. reflexivity.
    + reflexivity.
  - apply (Hwrite (Stub.manager (Resolved (Some "S")) 100) Stub.droppedFive
             Stub.context None ∅
             (Some (ThreeTierMemoryManager.summaryMessageOf "S"))
             (Stub.storeWith "S" 6) _
             (messagesTextOf Stub.stringify Stub.droppedFive) None None "S").
    + vm_compute. reflexivity.
    + vm_compute. right. left. reflexivity.
    + reflexivity.
  - apply (Hrepeat (Stub.manager (Resolved (Some "S")) 100)
             Stub.memoryStorage
             (Stub.input Scenario.tenMessages 1000 200 None)
             (Some Stub.context) ∅ _ _ _ eq_refl memoryStorage_persists
             orchestrator_scenario).
    exists (messagesTextOf Stub.stringify Stub.droppedFive), None, None, "S".
    split; [right; left; reflexivity|reflexivity].
Defined.

(** A stored record with marker 1 and an empty dropped tier: the length
    of the tier equals the count of covered messages, 0, and summary
    resolution returns no summary message instead of the stored text. *)
Lemma C4_counterexample :
  readSummary Stub.memoryStorage Stub.context (Stub.storeWith "old" 1)
  = (Resolved (Some (Stub.storedRecord "old" 1)), Stub.storeWith "old" 1)
  /\ Z.of_nat (length (@nil Message))
     = Z.max (MemorySummaryRecord.summarizedThroughIndex
                (Stub.storedRecord "old" 1) - 1) 0
  /\ ThreeTierMemoryManager.buildSummaryMessage Stub.stringify
       (Stub.manager (Resolved (Some "S")) 100) [] Stub.context None
       (Stub.storeWith "old" 1)
     = (Returned None, Stub.storeWith "old" 1, [])
  /\ Returned (Err := unit) (@None Message)
     <> Returned (Some (ThreeTierMemoryManager.summaryMessageOf "old")).
Proof.
  split; [vm_compute; reflexivity|].
  split; [reflexivity|].
  split; [reflexivity|discriminate].
Qed.

(* ================================================================== *)
(** ** Further properties of the token estimator *)
(* ================================================================== *)

Lemma ceil_div_mono (n m : nat) (cpt : Q) :
  (0 < cpt)%Q -> (n <= m)%nat -> ceil_div n cpt <= ceil_div m cpt.
Proof.
  intros Hpos Hle. unfold ceil_div. apply Qceiling_resp_le.
  unfold Qdiv. apply Qmult_le_compat_r.
  - rewrite <- Zle_Qle. lia.
  - apply Qlt_le_weak, Qinv_lt_0_compat, Hpos.
Qed.

(** X1. [estimateTotalTokens] is the sum of the estimates of the input
    text, of every message of the history and of the system message; a
    missing history counts as an empty one and a missing system message
    as an empty text. *)
Theorem X1_total_tokens_is_sum
    (input : string) (messages : option (list Message))
    (systemMessage : option string) (cpt : option Q) :
  estimateTotalTokens input messages systemMessage cpt
  = estimateStringTokens input cpt
    + sumTokens (default [] messages) cpt
    + estimateStringTokens (default EmptyString systemMessage) cpt.
Proof.
  unfold estimateTotalTokens.
  assert (Hmsgs :
            match messages with
            | Some msgs =>
                fold_left
                  (fun acc msg =>
                     acc + estimateContentTokens (content msg) cpt)
                  msgs (estimateStringTokens input cpt)
            | None => estimateStringTokens input cpt
            end
            = estimateStringTokens input cpt
              + sumTokens (default [] messages) cpt).
  { destruct messages as [msgs|]; simpl.
    - apply fold_tokens_acc.
    - rewrite sumTokens_nil. lia. }
  rewrite Hmsgs.
  assert (Hempty : estimateStringTokens EmptyString cpt = 0) by reflexivity.
  destruct systemMessage as [s|]; simpl.
  - destruct (truthy_string s) eqn:Hs; [reflexivity|].
    destruct s; [|discriminate]. rewrite Hempty. lia.
  - rewrite Hempty. lia.
Qed.

(** X2. A longer text never gets a smaller estimate: for one ratio, the
    estimate of a string grows with its length. *)
Theorem X2_estimate_monotone (s1 s2 : string) (cpt : option Q) :
  (String.length s1 <= String.length s2)%nat ->
  estimateStringTokens s1 cpt <= estimateStringTokens s2 cpt.
Proof.
  intros Hlen. unfold estimateStringTokens.
  destruct (truthy_string s1) eqn:H1; simpl;
    [|fold (estimateStringTokens s2 cpt); apply estimateStringTokens_nonneg].
  assert (H2 : truthy_string s2 = true).
  { unfold truthy_string in *. destruct (String.length s1); [discriminate|].
    destruct (String.length s2); [lia|reflexivity]. }
  rewrite H2. simpl.
  destruct (Qle_bool _ _) eqn:Hb; [lia|].
  apply ceil_div_mono; [apply Qle_bool_false_lt, Hb|exact Hlen].
Qed.

Lemma X2_estimate_monotone_witness :
  estimateStringTokens "hello" None <= estimateStringTokens "hello world" None.
Proof. apply X2_estimate_monotone. simpl. lia. Defined.

(** X4. For every finite ratio, positive or not, a multi-part content
    with a single text part gets the estimate of the plain string it
    carries, the empty text included. (A ratio that is not a number is
    not a value of the model: there the code gives 0 for the empty
    string and no number for an empty text part.) *)
Theorem X4_single_text_part_like_string
    (s : string) (url : option string) (cpt : option Q) :
  estimateContentTokens
    (ContentParts [ {| type := text_part; text := Some s; image_url := url |} ])
    cpt
  = estimateContentTokens (ContentString s) cpt.
Proof.
  simpl. unfold estimateStringTokens, addPartChars. simpl.
  destruct (Qle_bool _ _) eqn:Hb.
  - rewrite Bool.orb_true_r. reflexivity.
  - rewrite Bool.orb_false_r.
    destruct (truthy_string s) eqn:Hs; simpl; [reflexivity|].
    apply ceil_div_zero, Qle_bool_false_lt, Hb.
Qed.

(* ================================================================== *)
(** ** Further properties of the budget splitter *)
(* ================================================================== *)

(** X6. The available budget is the context window minus the reserved
    output, the safety margin (200 when none is given) and the estimates
    of the system message and of the pending user message, a missing
    message counting as an empty text; it never exceeds what the window,
    the reserved output and the margin leave. *)
Theorem X6_budget_formula (config : TokenBudgetConfig) :
  calculateHistoryBudget config
  = contextWindow config - maxOutputTokens config
    - default 200 (safetyMargin config)
    - estimateStringTokens (default EmptyString (systemMessage config))
        (charsPerToken config)
    - estimateStringTokens (default EmptyString (newUserMessage config))
        (charsPerToken config)
  /\ calculateHistoryBudget config
     <= contextWindow config - maxOutputTokens config
        - default 200 (safetyMargin config).
Proof.
  assert (Hempty : forall cpt, estimateStringTokens EmptyString cpt = 0)
    by reflexivity.
  assert (Hguard : forall (o : option string) cpt (b : Z),
             match o with
             | Some s =>
                 if truthy_string s then b - estimateStringTokens s cpt else b
             | None => b
             end = b - estimateStringTokens (default EmptyString o) cpt).
  { intros [s|] cpt b; simpl; [|rewrite Hempty; lia].
    destruct (truthy_string s) eqn:Hs; [reflexivity|].
    destruct s; [|discriminate]. rewrite Hempty. lia. }
  unfold calculateHistoryBudget. rewrite !Hguard.
  unfold DEFAULT_SAFETY_MARGIN. split; [reflexivity|].
  pose proof (estimateStringTokens_nonneg
                (default EmptyString (systemMessage config))
                (charsPerToken config)).
  pose proof (estimateStringTokens_nonneg
                (default EmptyString (newUserMessage config))
                (charsPerToken config)).
  lia.
Qed.

Lemma pairTokens_lookup (messages : list Message) cpt m0 m1 :
  messages !! 0%nat = Some m0 -> messages !! 1%nat = Some m1 ->
  estimateContentTokens (content m0) cpt
  + estimateContentTokens (content m1) cpt
  = pairTokens messages cpt.
Proof.
  intros H0 H1. unfold pairTokens.
  destruct messages as [|x [|y rest]]; try discriminate.
  simpl in H0, H1. injection H0 as ->. injection H1 as ->.
  simpl take. rewrite !sumTokens_cons, sumTokens_nil.
  unfold messageTokens. lia.
Qed.

(** The split of the code against the outcomes of the specification. *)
Lemma split_cases (messages : list Message) (config : ThreeTierConfig) :
  let r := splitForThreeTierMemory messages config in
  let budget := calculateHistoryBudget config in
  let pair := pairTokens messages (charsPerToken config) in
  let total := sumTokens messages (charsPerToken config) in
  ((length messages < 2)%nat /\ r = noTruncation messages)
  \/ ((2 <= length messages)%nat /\ (budget <= 0 \/ budget <= pair)
      /\ r = notApplicable messages)
  \/ ((2 <= length messages)%nat /\ 0 < budget /\ pair < budget
      /\ total <= budget /\ r = noTruncation messages)
  \/ ((2 <= length messages)%nat /\ 0 < budget /\ pair < budget
      /\ budget < total /\ r = threeTierOf messages config).
Proof.
  intros r budget pair total. subst r budget pair total.
  unfold splitForThreeTierMemory.
  destruct (Nat.ltb_spec (length messages) MIN_MESSAGES_FOR_FIRST_PAIR)
    as [Hlt|Hge]; [left; split; [exact Hlt|reflexivity]|].
  unfold MIN_MESSAGES_FOR_FIRST_PAIR in Hge. right.
  destruct (Z.leb_spec (calculateHistoryBudget config) 0) as [Hle|Hpos];
    [left; split; [exact Hge|]; split; [left; exact Hle|reflexivity]|].
  destruct (lookup_lt_is_Some_2 messages 0) as [m0 H0]; [lia|].
  destruct (lookup_lt_is_Some_2 messages 1) as [m1 H1]; [lia|].
  rewrite H0, H1.
  rewrite (pairTokens_lookup messages (charsPerToken config) m0 m1 H0 H1).
  destruct (Z.geb_spec (pairTokens messages (charsPerToken config))
              (calculateHistoryBudget config)) as [Hpair|Hpair];
    [left; split; [exact Hge|]; split; [right; lia|reflexivity]|].
  right.
  destruct (Z.leb_spec (sumTokens messages (charsPerToken config))
              (calculateHistoryBudget config)) as [Hall|Hall];
    [left; repeat split; assumption || lia|].
  right. repeat split; try assumption; try lia.
  unfold threeTierOf, recentTierOf, recentBudgetOf, slice,
    MIN_MESSAGES_FOR_FIRST_PAIR.
  rewrite recent_walk_spec. unfold MIN_MESSAGES_FOR_FIRST_PAIR.
  rewrite Nat.sub_0_r, drop_0.
  destruct (_ >? 0); f_equal; f_equal; lia.
Qed.

(** X7. The three outcomes of [splitForThreeTierMemory] and when each
    occurs. "Not truncated" (empty first pair and dropped tier, whole
    input as recent tier): fewer than two messages, or a positive
    budget that exceeds the first pair and holds the whole history.
    Fallback signal (truncated, empty first pair, whole input as dropped
    tier, empty recent tier): at least two messages and a budget that
    is not positive or does not exceed the first pair, also when the
    whole history would fit. Genuine split (truncated, first pair of the
    first two messages): at least two messages, a positive budget that
    exceeds the first pair and is exceeded by the whole history. *)
Theorem X7_split_outcomes (messages : list Message) (config : ThreeTierConfig) :
  let r := splitForThreeTierMemory messages config in
  let budget := calculateHistoryBudget config in
  let pair := pairTokens messages (charsPerToken config) in
  let total := sumTokens messages (charsPerToken config) in
  (wasTruncated r = false
   <-> (length messages < 2)%nat
       \/ (0 < budget /\ pair < budget /\ total <= budget))
  /\ (wasTruncated r = false ->
      firstPair r = [] /\ droppedMessages r = []
      /\ recentMessages r = messages)
  /\ (wasTruncated r = true /\ firstPair r = []
      <-> (2 <= length messages)%nat /\ (budget <= 0 \/ budget <= pair))
  /\ (wasTruncated r = true -> firstPair r = [] ->
      droppedMessages r = messages /\ recentMessages r = [])
  /\ (wasTruncated r = true /\ firstPair r <> []
      <-> (2 <= length messages)%nat /\ 0 < budget /\ pair < budget
          /\ budget < total)
  /\ (wasTruncated r = true -> firstPair r <> [] ->
      firstPair r = take 2 messages /\ length (firstPair r) = 2%nat).
Proof.
  intros r budget pair total.
  assert (Htake : (2 <= length messages)%nat ->
                  take 2 messages <> [] /\ length (take 2 messages) = 2%nat).
  { intros Hge. destruct messages as [|x [|y rest]]; simpl in *; try lia.
    split; [discriminate|reflexivity]. }
  pose proof (split_cases messages config) as Hcases.
  cbv zeta in Hcases. subst r budget pair total.
  destruct Hcases
    as [[Hlen Hr] | [[Hlen [Hb Hr]] | [[Hlen [Hb [Hp [Ht Hr]]]]
                                      | [Hlen [Hb [Hp [Ht Hr]]]]]]];
    rewrite Hr; simpl;
    try (destruct (Htake Hlen) as [Hne Hl]);
    intuition (try discriminate; try lia; try congruence).
Qed.

(** A first pair of exactly the budget (two messages of 300 tokens under
    600 tokens) gives the fallback signal although the history fits;
    the ten-message scenario gives a genuine split. *)
Lemma X7_split_outcomes_witness :
  (let r := splitForThreeTierMemory
              [Scenario.msg user 1200; Scenario.msg assistant 1200]
              (Scenario.threeTier Scenario.baseConfig 100) in
   wasTruncated r = true /\ firstPair r = [])
  /\ (let r := splitForThreeTierMemory Scenario.tenMessages
                 (Scenario.threeTier Scenario.baseConfig 100) in
      firstPair r = take 2 Scenario.tenMessages
      /\ length (firstPair r) = 2%nat).
Proof.
  split.
  - destruct (X7_split_outcomes
                [Scenario.msg user 1200; Scenario.msg assistant 1200]
                (Scenario.threeTier Scenario.baseConfig 100))
      as (_ & _ & Hfallback & _).
    apply Hfallback. split; [simpl; lia|].
    right. vm_compute. discriminate.
  - destruct (X7_split_outcomes Scenario.tenMessages
                (Scenario.threeTier Scenario.baseConfig 100))
      as (_ & _ & _ & _ & Hsplit & Hpair).
    assert (Hcond : (2 <= length Scenario.tenMessages)%nat
                    /\ 0 < 600 /\ 200 < 600 /\ 600 < 1000)
      by (repeat split; simpl; lia).
    destruct (proj2 Hsplit Hcond) as [Htrunc Hne].
    exact (Hpair Htrunc Hne).
Defined.

(** X8. [processedThroughIndex] is the index of the last message of the
    input in every outcome of the split, and 0 for an empty input. *)
Theorem X8_processed_through_last_index
    (messages : list Message) (config : ThreeTierConfig) :
  processedThroughIndex (splitForThreeTierMemory messages config)
  = Z.max (Z.of_nat (length messages) - 1) 0.
Proof.
  pose proof (split_cases messages config) as Hcases. cbv zeta in Hcases.
  destruct Hcases
    as [[Hlen Hr] | [[Hlen [Hb Hr]] | [[Hlen [Hb [Hp [Ht Hr]]]]
                                      | [Hlen [Hb [Hp [Ht Hr]]]]]]];
    rewrite Hr; simpl; lia.
Qed.

Lemma recentTierOf_suffix messages config :
  recentTierOf messages config `suffix_of` drop 2 messages.
Proof.
  unfold recentTierOf. destruct (_ >? 0).
  - apply slidingWindow_suffix.
  - apply suffix_nil.
Qed.

Lemma recentTierOf_within messages config :
  sumTokens (recentTierOf messages config) (charsPerToken config)
  <= Z.max 0 (recentBudgetOf messages config).
Proof.
  unfold recentTierOf.
  destruct (Z.gtb_spec (recentBudgetOf messages config) 0) as [Hpos|Hle].
  - pose proof (slidingWindow_within (charsPerToken config)
                  (recentBudgetOf messages config) (drop 2 messages)).
    lia.
  - rewrite sumTokens_nil. lia.
Qed.

(** X9. In a genuine split (truncated, non-empty first pair) the first
    pair costs less than the available budget, the recent tier is a
    suffix of the messages after the first pair, and its cost is at most
    what the budget leaves after the first pair and the summary slot
    (at most 0, that is an empty or zero-cost tier, when nothing is
    left): with a non-empty recent tier, first pair, summary slot and
    recent tier fit in the budget together. *)
Theorem X9_three_tier_within_budget
    (messages : list Message) (config : ThreeTierConfig) :
  let r := splitForThreeTierMemory messages config in
  let budget := calculateHistoryBudget config in
  let cpt := charsPerToken config in
  wasTruncated r = true ->
  firstPair r <> [] ->
  sumTokens (firstPair r) cpt < budget
  /\ recentMessages r `suffix_of` drop 2 messages
  /\ sumTokens (recentMessages r) cpt
     <= Z.max 0 (budget - sumTokens (firstPair r) cpt
                 - maxSummaryBudgetTokens config)
  /\ (recentMessages r <> [] ->
      sumTokens (firstPair r) cpt + maxSummaryBudgetTokens config
      + sumTokens (recentMessages r) cpt <= budget).
Proof.
  intros r budget cpt Htrunc Hpair. subst r budget cpt.
  pose proof (split_cases messages config) as Hcases. cbv zeta in Hcases.
  destruct Hcases
    as [[Hlen Hr] | [[Hlen [Hb Hr]] | [[Hlen [Hb [Hp [Ht Hr]]]]
                                      | [Hlen [Hb [Hp [Ht Hr]]]]]]];
    rewrite Hr in Htrunc, Hpair |- *; simpl in Htrunc, Hpair |- *;
    try discriminate; try contradiction.
  fold (pairTokens messages (charsPerToken config)).
  pose proof (recentTierOf_within messages config) as Hwithin.
  unfold recentBudgetOf in Hwithin.
  split; [exact Hp|]. split; [apply recentTierOf_suffix|].
  split; [exact Hwithin|].
  intros Hne.
  assert (Hposb : 0 < recentBudgetOf messages config).
  { unfold recentTierOf in Hne.
    destruct (Z.gtb_spec (recentBudgetOf messages config) 0);
      [lia|contradiction]. }
  unfold recentBudgetOf in Hposb. lia.
Qed.

Lemma X9_three_tier_within_budget_witness :
  let r := splitForThreeTierMemory Scenario.tenMessages
             (Scenario.threeTier Scenario.baseConfig 100) in
  sumTokens (firstPair r) None < 600
  /\ recentMessages r `suffix_of` drop 2 Scenario.tenMessages
  /\ sumTokens (recentMessages r) None
     <= Z.max 0 (600 - sumTokens (firstPair r) None - 100)
  /\ (recentMessages r <> [] ->
      sumTokens (firstPair r) None + 100 + sumTokens (recentMessages r) None
      <= 600).
Proof.
  apply (X9_three_tier_within_budget Scenario.tenMessages
           (Scenario.threeTier Scenario.baseConfig 100)).
  - vm_compute. reflexivity.
  - vm_compute. discriminate.
Defined.

Lemma threeTierOf_drops (messages : list Message) (config : ThreeTierConfig) :
  pairTokens messages (charsPerToken config) < calculateHistoryBudget config ->
  calculateHistoryBudget config < sumTokens messages (charsPerToken config) ->
  0 <= maxSummaryBudgetTokens config ->
  droppedMessages (threeTierOf messages config) <> [].
Proof.
  intros Hp Ht Hslot Hempty. simpl in Hempty.
  destruct (recentTierOf_suffix messages config) as [pre Hpre].
  assert (Hlen : (length messages - 2 - length (recentTierOf messages config))%nat
                 = length pre).
  { pose proof (length_drop messages 2) as Hd.
    rewrite Hpre, length_app in Hd. lia. }
  rewrite Hlen, Hpre, take_app_length in Hempty. subst pre.
  simpl in Hpre.
  pose proof (recentTierOf_within messages config) as Hwithin.
  unfold recentBudgetOf in Hwithin.
  rewrite <- (take_drop 2 messages), sumTokens_app, Hpre in Ht.
  fold (pairTokens messages (charsPerToken config)) in Ht.
  lia.
Qed.

(** X10. With a non-negative summary slot a genuine split always drops
    something: the dropped tier is not empty. *)
Theorem X10_genuine_split_drops
    (messages : list Message) (config : ThreeTierConfig) :
  let r := splitForThreeTierMemory messages config in
  wasTruncated r = true ->
  firstPair r <> [] ->
  0 <= maxSummaryBudgetTokens config ->
  droppedMessages r <> [].
Proof.
  intros r Htrunc Hpair Hslot. subst r.
  pose proof (split_cases messages config) as Hcases. cbv zeta in Hcases.
  destruct Hcases
    as [[Hlen Hr] | [[Hlen [Hb Hr]] | [[Hlen [Hb [Hp [Ht Hr]]]]
                                      | [Hlen [Hb [Hp [Ht Hr]]]]]]];
    rewrite Hr in Htrunc, Hpair |- *; simpl in Htrunc, Hpair;
    try discriminate; try contradiction.
  apply threeTierOf_drops; assumption.
Qed.

Lemma X10_genuine_split_drops_witness :
  droppedMessages
    (splitForThreeTierMemory Scenario.tenMessages
       (Scenario.threeTier Scenario.baseConfig 100))
  <> [].
Proof.
  apply (X10_genuine_split_drops Scenario.tenMessages
           (Scenario.threeTier Scenario.baseConfig 100)).
  - vm_compute. reflexivity.
  - vm_compute. discriminate.
  - simpl. lia.
Defined.

(** X11. The recent tier of a genuine split is as long as the budget
    allows: when something is left for it after the first pair and the
    summary slot, the last dropped message does not fit in front of it. *)
Theorem X11_recent_tier_is_maximal
    (messages : list Message) (config : ThreeTierConfig)
    (earlier : list Message) (lastDropped : Message) :
  let r := splitForThreeTierMemory messages config in
  let cpt := charsPerToken config in
  let recentBudget :=
    calculateHistoryBudget config - sumTokens (firstPair r) cpt
    - maxSummaryBudgetTokens config in
  wasTruncated r = true ->
  firstPair r <> [] ->
  0 < recentBudget ->
  droppedMessages r = earlier ++ [lastDropped] ->
  messageTokens cpt lastDropped + sumTokens (recentMessages r) cpt
  > recentBudget.
Proof.
  intros r cpt recentBudget Htrunc Hpair Hpos Hdropped.
  subst r cpt recentBudget.
  pose proof (split_cases messages config) as Hcases. cbv zeta in Hcases.
  destruct Hcases
    as [[Hlen Hr] | [[Hlen [Hb Hr]] | [[Hlen [Hb [Hp [Ht Hr]]]]
                                      | [Hlen [Hb [Hp [Ht Hr]]]]]]];
    rewrite Hr in Htrunc, Hpair, Hpos, Hdropped |- *;
    simpl in Htrunc, Hpair, Hpos, Hdropped |- *;
    try discriminate; try contradiction.
  fold (pairTokens messages (charsPerToken config)) in Hpos |- *.
  fold (recentBudgetOf messages config) in Hpos |- *.
  destruct (recentTierOf_suffix messages config) as [pre Hpre].
  assert (Hl : (length messages - 2 - length (recentTierOf messages config))%nat
               = length pre).
  { pose proof (length_drop messages 2) as Hd.
    rewrite Hpre, length_app in Hd. lia. }
  rewrite Hl, Hpre, take_app_length in Hdropped. subst pre.
  unfold recentTierOf in Hpre |- *.
  destruct (Z.gtb_spec (recentBudgetOf messages config) 0) as [_|Hle];
    [|lia].
  apply (slidingWindow_stops (charsPerToken config)
           (recentBudgetOf messages config) (drop 2 messages) earlier).
  rewrite Hpre at 1. rewrite <- app_assoc. reflexivity.
Qed.

Lemma X11_recent_tier_is_maximal_witness :
  let r := splitForThreeTierMemory Scenario.tenMessages
             (Scenario.threeTier Scenario.baseConfig 100) in
  messageTokens None (Scenario.msg user 400)
  + sumTokens (recentMessages r) None
  > 600 - sumTokens (firstPair r) None - 100.
Proof.
  apply (X11_recent_tier_is_maximal Scenario.tenMessages
           (Scenario.threeTier Scenario.baseConfig 100)
           (take 4 (drop 2 Scenario.tenMessages)) (Scenario.msg user 400)).
  - vm_compute. reflexivity.
  - vm_compute. discriminate.
  - vm_compute. reflexivity.
  - vm_compute. reflexivity.
Defined.

(* ================================================================== *)
(** ** Further properties of the sliding window *)
(* ================================================================== *)

Lemma takeWhileFits_budget_mono cpt (b1 b2 : Z) (l : list Message) :
  b1 <= b2 -> takeWhileFits cpt b1 l `prefix_of` takeWhileFits cpt b2 l.
Proof.
  revert b1 b2. induction l as [|m l IH]; intros b1 b2 Hle; simpl.
  - reflexivity.
  - destruct (Z.gtb_spec (messageTokens cpt m) b1) as [H1|H1].
    + apply prefix_nil.
    + destruct (Z.gtb_spec (messageTokens cpt m) b2) as [H2|H2]; [lia|].
      apply prefix_cons, IH. lia.
Qed.

Lemma takeWhileFits_app_stopped cpt (b : Z) (l l' : list Message) :
  (length (takeWhileFits cpt b l) < length l)%nat ->
  takeWhileFits cpt b (l ++ l') = takeWhileFits cpt b l.
Proof.
  revert b. induction l as [|m l IH]; intros b Hlen; simpl in *.
  - lia.
  - destruct (messageTokens cpt m >? b); [reflexivity|].
    simpl in Hlen. f_equal. apply IH. lia.
Qed.

Lemma prefix_reverse_suffix (l k : list Message) :
  l `prefix_of` k -> reverse l `suffix_of` reverse k.
Proof.
  intros [rest ->]. exists (reverse rest). apply reverse_app.
Qed.

(** X12. Truncating twice is truncating once: the window returned by
    [truncateToTokenBudget] is kept whole by a second pass under the
    same configuration. *)
Theorem X12_truncate_idempotent
    (messages : list Message) (config : TokenBudgetConfig) :
  truncateToTokenBudget (truncateToTokenBudget messages config) config
  = truncateToTokenBudget messages config.
Proof.
  destruct (Z_lt_le_dec 0 (calculateHistoryBudget config)) as [Hpos|Hle].
  - rewrite !(truncateToTokenBudget_positive _ _ Hpos).
    apply slidingWindow_all, slidingWindow_within. lia.
  - rewrite !(truncateToTokenBudget_exhausted _ config) by (right; exact Hle).
    reflexivity.
Qed.

(** X13. A larger budget never loses messages: under two configurations
    with the same ratio, the window of the smaller budget is a suffix of
    the window of the larger one. *)
Theorem X13_truncate_monotone_in_budget
    (messages : list Message) (config1 config2 : TokenBudgetConfig) :
  charsPerToken config1 = charsPerToken config2 ->
  calculateHistoryBudget config1 <= calculateHistoryBudget config2 ->
  truncateToTokenBudget messages config1
  `suffix_of` truncateToTokenBudget messages config2.
Proof.
  intros Hcpt Hle.
  destruct (Z_lt_le_dec 0 (calculateHistoryBudget config1)) as [Hpos|Hneg].
  - rewrite !truncateToTokenBudget_positive by lia.
    rewrite Hcpt. unfold slidingWindow.
    apply prefix_reverse_suffix, takeWhileFits_budget_mono, Hle.
  - rewrite (truncateToTokenBudget_exhausted messages config1)
      by (right; exact Hneg).
    apply suffix_nil.
Qed.

(** Three messages of 250 tokens: 300 tokens keep the last one, 600
    tokens the last two. *)
Lemma X13_truncate_monotone_in_budget_witness :
  truncateToTokenBudget Scenario.threeLong Scenario.smallConfig
  = drop 2 Scenario.threeLong
  /\ truncateToTokenBudget Scenario.threeLong Scenario.baseConfig
     = drop 1 Scenario.threeLong
  /\ truncateToTokenBudget Scenario.threeLong Scenario.smallConfig
     `suffix_of` truncateToTokenBudget Scenario.threeLong Scenario.baseConfig.
Proof.
  split; [vm_compute; reflexivity|]. split; [vm_compute; reflexivity|].
  apply (X13_truncate_monotone_in_budget Scenario.threeLong
           Scenario.smallConfig Scenario.baseConfig).
  - reflexivity.
  - vm_compute. discriminate.
Defined.

(** X14. Once the window leaves a message out, what lies before that
    message has no influence: putting more messages in front of the
    history gives the same window. *)
Theorem X14_truncate_ignores_older_messages
    (older messages : list Message) (config : TokenBudgetConfig) :
  (length (truncateToTokenBudget messages config) < length messages)%nat ->
  truncateToTokenBudget (older ++ messages) config
  = truncateToTokenBudget messages config.
Proof.
  intros Hlen.
  destruct (Z_lt_le_dec 0 (calculateHistoryBudget config)) as [Hpos|Hle].
  - rewrite (truncateToTokenBudget_positive _ _ Hpos) in Hlen.
    rewrite !(truncateToTokenBudget_positive _ _ Hpos).
    unfold slidingWindow in *. rewrite length_reverse in Hlen.
    rewrite reverse_app, takeWhileFits_app_stopped; [reflexivity|].
    rewrite length_reverse. exact Hlen.
  - rewrite !(truncateToTokenBudget_exhausted _ config) by (right; exact Hle).
    reflexivity.
Qed.

Lemma X14_truncate_ignores_older_messages_witness :
  truncateToTokenBudget
    ([Scenario.msg user 10; Scenario.msg assistant 10] ++ Scenario.threeLong)
    Scenario.baseConfig
  = truncateToTokenBudget Scenario.threeLong Scenario.baseConfig.
Proof.
  apply X14_truncate_ignores_older_messages. vm_compute. lia.
Defined.

(** X15. Under a positive budget the history comes back whole exactly
    when its estimated total is within the budget. *)
Theorem X15_truncate_keeps_all_iff_fits
    (messages : list Message) (config : TokenBudgetConfig) :
  0 < calculateHistoryBudget config ->
  truncateToTokenBudget messages config = messages
  <-> sumTokens messages (charsPerToken config)
      <= calculateHistoryBudget config.
Proof.
  intros Hpos. rewrite (truncateToTokenBudget_positive _ _ Hpos). split.
  - intros Heq. rewrite <- Heq at 1. apply slidingWindow_within. lia.
  - apply slidingWindow_all.
Qed.

Lemma X15_truncate_keeps_all_iff_fits_witness :
  truncateToTokenBudget (drop 1 Scenario.threeLong) Scenario.baseConfig
  = drop 1 Scenario.threeLong
  /\ truncateToTokenBudget Scenario.threeLong Scenario.baseConfig
     <> Scenario.threeLong.
Proof.
  split.
  - apply (X15_truncate_keeps_all_iff_fits (drop 1 Scenario.threeLong)
             Scenario.baseConfig); [reflexivity|].
    vm_compute. discriminate.
  - intros Heq.
    apply (X15_truncate_keeps_all_iff_fits Scenario.threeLong
             Scenario.baseConfig) in Heq; [|reflexivity].
    vm_compute in Heq. apply Heq. reflexivity.
Defined.

(* ================================================================== *)
(** ** Further properties of the orchestrator *)
(* ================================================================== *)

Section OrchestratorMore.
Import ThreeTierMemoryManager.
Context {World Payload Err : Type}.
Variable JSON_stringify : list ContentPart -> string.

Implicit Types (this : Self.t World Payload Err) (w : World).
Implicit Types (sc : option Payload) (ctx : MemoryContext.t).
Implicit Types (dropped : list Message).
Implicit Types (input : BuildHistoryInput.t Payload).

Lemma collaboratorCalls_warnLine this :
  collaboratorCalls (warnLine this) = [].
Proof. unfold warnLine. destruct (Self.logger this); reflexivity. Qed.

(** The calls of a run of summary resolution, in order, and the form of
    the message it returns. *)
Lemma SummaryRun_calls this dropped ctx sc w sm w' evs :
  SummaryRun JSON_stringify this dropped ctx sc w sm w' evs ->
  (collaboratorCalls evs = []
   \/ (exists o, collaboratorCalls evs = [evRead ctx o])
   \/ (exists existing text o,
         collaboratorCalls evs
         = [evRead ctx (Resolved existing);
            EvSummarize text (summaryOf existing) sc o])
   \/ (exists existing text t u,
         truthy_string t = true
         /\ collaboratorCalls evs
            = [evRead ctx (Resolved existing);
               EvSummarize text (summaryOf existing) sc (Resolved (Some t));
               EvUpsertSummary (upsertDataOf ctx dropped t) u]))
  /\ (sm = None \/ exists text, sm = Some (summaryMessageOf text)).
Proof.
  intros HR. inversion HR; subst.
  - split; [left; reflexivity|left; reflexivity].
  - split; [|left; reflexivity]. right. left. exists o.
    change (evRead ctx o :: warnLine this)
      with ([evRead ctx o] ++ warnLine this).
    rewrite collaboratorCalls_app, collaboratorCalls_warnLine. reflexivity.
  - split; [|right; eauto]. right. left. eexists. reflexivity.
  - split; [|left; reflexivity]. right. right. left.
    eexists _, _, _.
    rewrite collaboratorCalls_app, collaboratorCalls_warnLine. reflexivity.
  - split.
    + right. right. left. eexists _, _, _. reflexivity.
    + destruct existing; simpl; [right; eauto|left; reflexivity].
  - split.
    + right. right. right. eexists _, _, _, _. split; [eassumption|].
      rewrite collaboratorCalls_app.
      destruct u; rewrite ?collaboratorCalls_warnLine; reflexivity.
    + destruct u; [right; eauto|right; eauto|left; reflexivity].
Qed.

(** X16. Without a memory context, with summarization disabled, or
    without a storage or a summarizer, [buildHistory] calls no
    collaborator and leaves the outside world as it found it; when the
    split was genuine it returns the first pair, the recent tier and the
    pending message, and the dropped tier is lost. *)
Theorem X16_no_summarization_no_calls
    this input (context : option MemoryContext.t) w :
  context = None \/ Self.summarizationEnabled this = false
  \/ Self.storage this = None \/ Self.summarizer this = None ->
  let r := splitForThreeTierMemory (BuildHistoryInput.allHistory input)
             (splitConfigOf this input) in
  exists messages evs,
    buildHistory JSON_stringify this input context w
    = (Returned messages, w, evs)
    /\ collaboratorCalls evs = []
    /\ (wasTruncated r = true -> firstPair r <> [] ->
        messages
        = firstPair r ++ recentMessages r
          ++ pendingMessage (BuildHistoryInput.newUserMessage input)).
Proof.
  intros Hoff r. subst r. fold (splitOf this input).
  destruct (wasTruncated (splitOf this input)) eqn:Htrunc.
  2: { rewrite buildHistory_no_truncation by exact Htrunc.
       eexists _, _. split; [reflexivity|]. split; [reflexivity|].
       discriminate. }
  destruct (firstPair (splitOf this input)) as [|m0 pair] eqn:Hpair.
  { rewrite buildHistory_fallback by assumption.
    eexists _, _. split; [reflexivity|].
    split; [|intros _ H; contradiction].
    rewrite collaboratorCalls_app, !collaboratorCalls_debugLine.
    reflexivity. }
  assert (Hne : firstPair (splitOf this input) <> [])
    by (rewrite Hpair; discriminate).
  rewrite <- Hpair.
  destruct context as [ctx|].
  - destruct Hoff as [Hctx | Hoff]; [discriminate|].
    rewrite buildHistory_three_tier by assumption.
    rewrite buildSummaryMessage_skipped by (right; exact Hoff).
    eexists _, _. split; [reflexivity|].
    split; [rewrite app_nil_r; apply collaboratorCalls_debugLine|].
    intros _ _. reflexivity.
  - rewrite buildHistory_three_tier_no_context by assumption.
    eexists _, _. split; [reflexivity|].
    split; [apply collaboratorCalls_debugLine|].
    intros _ _. reflexivity.
Qed.

(** X17. The calls of one [buildHistory] run, in order: none; or one
    read of the record under the key of the memory context; or that
    read, resolved, followed by one engine call that receives the text
    of the stored summary (or none); or these two, the engine having
    answered with a non-empty text, followed by one write of that text
    with the marker of the current dropped tier. Nothing is ever
    deleted, and nothing is written without a successful engine call. *)
Theorem X17_call_discipline this input (context : option MemoryContext.t) w :
  exists messages w' evs,
    buildHistory JSON_stringify this input context w
    = (Returned messages, w', evs)
    /\ (collaboratorCalls evs = []
        \/ exists ctx,
            context = Some ctx
            /\ ((exists o, collaboratorCalls evs = [evRead ctx o])
                \/ (exists existing text o,
                      collaboratorCalls evs
                      = [evRead ctx (Resolved existing);
                         EvSummarize text (summaryOf existing)
                           (BuildHistoryInput.summarizationContext input) o])
                \/ (exists existing text t u,
                      truthy_string t = true
                      /\ collaboratorCalls evs
                         = [evRead ctx (Resolved existing);
                            EvSummarize text (summaryOf existing)
                              (BuildHistoryInput.summarizationContext input)
                              (Resolved (Some t));
                            EvUpsertSummary
                              (upsertDataOf ctx
                                 (droppedMessages
                                    (splitForThreeTierMemory
                                       (BuildHistoryInput.allHistory input)
                                       (splitConfigOf this input)))
                                 t)
                              u]))).
Proof.
  fold (splitOf this input).
  destruct (wasTruncated (splitOf this input)) eqn:Htrunc.
  2: { rewrite buildHistory_no_truncation by exact Htrunc.
       eexists _, _, _. split; [reflexivity|]. left. reflexivity. }
  destruct (firstPair (splitOf this input)) as [|m0 pair] eqn:Hpair.
  { rewrite buildHistory_fallback by assumption.
    eexists _, _, _. split; [reflexivity|]. left.
    rewrite collaboratorCalls_app, !collaboratorCalls_debugLine.
    reflexivity. }
  assert (Hne : firstPair (splitOf this input) <> [])
    by (rewrite Hpair; discriminate).
  destruct context as [ctx|].
  2: { rewrite buildHistory_three_tier_no_context by assumption.
       eexists _, _, _. split; [reflexivity|]. left.
       apply collaboratorCalls_debugLine. }
  rewrite buildHistory_three_tier by assumption.
  destruct (buildSummaryMessage_run JSON_stringify this
              (droppedMessages (splitOf this input)) ctx
              (BuildHistoryInput.summarizationContext input) w)
    as (sm & w' & evs & Hrun & HR).
  rewrite Hrun. eexists _, _, _. split; [reflexivity|].
  rewrite collaboratorCalls_app, collaboratorCalls_debugLine. simpl.
  destruct (SummaryRun_calls _ _ _ _ _ _ _ _ HR) as [Hcalls _].
  destruct Hcalls as [Hnone | Hsome]; [left; exact Hnone|].
  right. exists ctx. split; [reflexivity|exact Hsome].
Qed.

Lemma truncateToTokenBudget_suffix messages (config : TokenBudgetConfig) :
  truncateToTokenBudget messages config `suffix_of` messages.
Proof.
  destruct (Z_lt_le_dec 0 (calculateHistoryBudget config)) as [Hpos|Hle].
  - rewrite (truncateToTokenBudget_positive _ _ Hpos).
    apply slidingWindow_suffix.
  - rewrite (truncateToTokenBudget_exhausted messages config)
      by (right; exact Hle).
    apply suffix_nil.
Qed.

Lemma truncateToTokenBudget_within messages (config : TokenBudgetConfig) :
  sumTokens (truncateToTokenBudget messages config) (charsPerToken config)
  <= Z.max 0 (calculateHistoryBudget config).
Proof.
  destruct (Z_lt_le_dec 0 (calculateHistoryBudget config)) as [Hpos|Hle].
  - rewrite (truncateToTokenBudget_positive _ _ Hpos).
    pose proof (slidingWindow_within (charsPerToken config)
                  (calculateHistoryBudget config) messages).
    lia.
  - rewrite (truncateToTokenBudget_exhausted messages config)
      by (right; exact Hle).
    rewrite sumTokens_nil. lia.
Qed.

(** The tiers of a genuine split that [buildHistory] keeps verbatim. *)
Lemma threeTierOf_kept (messages : list Message) (config : ThreeTierConfig) :
  (2 <= length messages)%nat ->
  pairTokens messages (charsPerToken config) < calculateHistoryBudget config ->
  take 2 messages `prefix_of` messages
  /\ recentTierOf messages config `suffix_of` messages
  /\ (length (take 2 messages) + length (recentTierOf messages config)
      <= length messages)%nat
  /\ (0 <= maxSummaryBudgetTokens config ->
      sumTokens (take 2 messages ++ recentTierOf messages config)
        (charsPerToken config)
      <= Z.max 0 (calculateHistoryBudget config)).
Proof.
  intros Hlen Hp.
  pose proof (recentTierOf_suffix messages config) as Hsuf.
  pose proof (recentTierOf_within messages config) as Hwithin.
  unfold recentBudgetOf in Hwithin.
  split; [apply prefix_take|].
  split; [etransitivity; [exact Hsuf|apply suffix_drop]|].
  split.
  - apply suffix_length in Hsuf. rewrite length_drop in Hsuf.
    rewrite length_take. lia.
  - intros Hslot. rewrite sumTokens_app.
    fold (pairTokens messages (charsPerToken config)). lia.
Qed.

(** X18. What [buildHistory] returns, in order: a prefix of the history
    (empty, or its first two messages), at most one summary message (a
    user message whose text is the summary marker line followed by a
    summary), a suffix of the history that does not overlap the prefix,
    and the pending message when one was supplied. With at least two
    messages in the history and a non-negative summary slot, the
    messages kept from the history cost at most the available budget
    (nothing is kept that costs anything when the budget is not
    positive). *)
Theorem X18_shape_of_the_result
    this input (context : option MemoryContext.t) w :
  let history := BuildHistoryInput.allHistory input in
  let config := splitConfigOf this input in
  exists head summary tail w' evs,
    buildHistory JSON_stringify this input context w
    = (Returned
         (head ++ summary ++ tail
          ++ pendingMessage (BuildHistoryInput.newUserMessage input)),
       w', evs)
    /\ head `prefix_of` history
    /\ tail `suffix_of` history
    /\ (length head + length tail <= length history)%nat
    /\ (head = [] \/ head = take 2 history)
    /\ (summary = [] \/ exists text, summary = [summaryMessageOf text])
    /\ ((2 <= length history)%nat ->
        0 <= maxSummaryBudgetTokens config ->
        sumTokens (head ++ tail) (charsPerToken config)
        <= Z.max 0 (calculateHistoryBudget config)).
Proof.
  intros history config.
  pose proof (split_cases history config) as Hcases. cbv zeta in Hcases.
  assert (Hsplit : splitOf this input = splitForThreeTierMemory history config)
    by reflexivity.
  assert (Hkeep_all :
            wasTruncated (splitOf this input) = false ->
            ((2 <= length history)%nat ->
             sumTokens history (charsPerToken config)
             <= calculateHistoryBudget config) ->
            exists head summary tail w' evs,
              buildHistory JSON_stringify this input context w
              = (Returned
                   (head ++ summary ++ tail
                    ++ pendingMessage (BuildHistoryInput.newUserMessage input)),
                 w', evs)
              /\ head `prefix_of` history
              /\ tail `suffix_of` history
              /\ (length head + length tail <= length history)%nat
              /\ (head = [] \/ head = take 2 history)
              /\ (summary = [] \/ exists text, summary = [summaryMessageOf text])
              /\ ((2 <= length history)%nat ->
                  0 <= maxSummaryBudgetTokens config ->
                  sumTokens (head ++ tail) (charsPerToken config)
                  <= Z.max 0 (calculateHistoryBudget config))).
  { intros Hno Hfit. rewrite buildHistory_no_truncation by exact Hno.
    exists [], [], history. eexists _, _. split; [reflexivity|].
    split; [apply prefix_nil|]. split; [reflexivity|].
    split; [simpl; lia|]. split; [left; reflexivity|].
    split; [left; reflexivity|].
    intros Hlen _. specialize (Hfit Hlen). cbn [app]. lia. }
  destruct Hcases
    as [[Hlen Hr] | [[Hlen [Hb Hr]] | [[Hlen [Hb [Hp [Ht Hr]]]]
                                      | [Hlen [Hb [Hp [Ht Hr]]]]]]].
  - apply Hkeep_all; [rewrite Hsplit, Hr; reflexivity|lia].
  - clear Hkeep_all.
    rewrite buildHistory_fallback by (rewrite Hsplit, Hr; reflexivity).
    exists [], [],
      (truncateToTokenBudget history (budgetConfigOf this input)).
    eexists _, _. split; [reflexivity|].
    pose proof (truncateToTokenBudget_suffix history
                  (budgetConfigOf this input)) as Hsuf.
    split; [apply prefix_nil|]. split; [exact Hsuf|].
    split; [apply suffix_length in Hsuf; simpl; lia|].
    split; [left; reflexivity|]. split; [left; reflexivity|].
    intros _ _. simpl.
    apply (truncateToTokenBudget_within history (budgetConfigOf this input)).
  - apply Hkeep_all; [rewrite Hsplit, Hr; reflexivity|intros _; exact Ht].
  - clear Hkeep_all.
    assert (Htrunc : wasTruncated (splitOf this input) = true)
      by (rewrite Hsplit, Hr; reflexivity).
    assert (Hne : firstPair (splitOf this input) <> []).
    { rewrite Hsplit, Hr. simpl.
      destruct history as [|x [|y rest]]; simpl in *; try lia. discriminate. }
    destruct (threeTierOf_kept history config Hlen Hp)
      as (Hpre & Hsuf & Hlens & Hcost).
    assert (Hsm : exists sm w' evs,
               buildHistory JSON_stringify this input context w
               = (Returned (assembled this input sm), w', evs)
               /\ (sm = None \/ exists text, sm = Some (summaryMessageOf text))).
    { destruct context as [ctx|].
      - rewrite buildHistory_three_tier by assumption.
        destruct (buildSummaryMessage_run JSON_stringify this
                    (droppedMessages (splitOf this input)) ctx
                    (BuildHistoryInput.summarizationContext input) w)
          as (sm & w' & evs & Hrun & HR).
        rewrite Hrun. eexists _, _, _. split; [reflexivity|].
        exact (proj2 (SummaryRun_calls _ _ _ _ _ _ _ _ HR)).
      - rewrite buildHistory_three_tier_no_context by assumption.
        eexists _, _, _. split; [reflexivity|left; reflexivity]. }
    destruct Hsm as (sm & w' & evs & Hrun & Hform).
    rewrite Hrun. unfold assembled. rewrite Hsplit, Hr. simpl.
    exists (take 2 history),
      (match sm with Some m => [m] | None => [] end),
      (recentTierOf history config).
    eexists _, _. split; [reflexivity|].
    split; [exact Hpre|]. split; [exact Hsuf|]. split; [exact Hlens|].
    split; [right; reflexivity|].
    split; [|intros _; exact Hcost].
    destruct Hform as [-> | [text ->]]; [left; reflexivity|right; eauto].
Qed.

(** X19. A history of fewer than two messages is never truncated: it
    comes back whole, followed by the pending message, with no call and
    no log line, also when it does not fit in the budget or the budget
    is negative. *)
Theorem X19_short_history_returned_whole
    this input (context : option MemoryContext.t) w :
  (length (BuildHistoryInput.allHistory input) < 2)%nat ->
  buildHistory JSON_stringify this input context w
  = (Returned (BuildHistoryInput.allHistory input
               ++ pendingMessage (BuildHistoryInput.newUserMessage input)),
     w, []).
Proof.
  intros Hlen. apply buildHistory_no_truncation.
  unfold splitOf, splitForThreeTierMemory.
  destruct (Nat.ltb_spec (length (BuildHistoryInput.allHistory input))
              MIN_MESSAGES_FOR_FIRST_PAIR) as [_|Hge]; [reflexivity|].
  unfold MIN_MESSAGES_FOR_FIRST_PAIR in Hge. lia.
Qed.

(** X20. Summarization is incremental: when the store is consulted and
    the stored record leaves part of the dropped tier uncovered, the
    engine is called once, right after the read, with the text of the
    dropped messages after the first [max(m - 1, 0)] only and with the
    stored summary; with no record it gets the text of the whole dropped
    tier and no summary. *)
Theorem X20_engine_gets_only_the_new_messages
    this st su dropped ctx sc w
    (existing : option MemorySummaryRecord.t) w1 :
  consults this st su dropped ->
  readSummary st ctx w = (Resolved existing, w1) ->
  let covered :=
    match existing with
    | Some r =>
        Z.to_nat (Z.max (MemorySummaryRecord.summarizedThroughIndex r - 1) 0)
    | None => 0%nat
    end in
  (covered < length dropped)%nat ->
  exists sm w' o rest,
    buildSummaryMessage JSON_stringify this dropped ctx sc w
    = (Returned sm, w',
       evRead ctx (Resolved existing)
       :: EvSummarize (messagesTextOf JSON_stringify (drop covered dropped))
            (option_map MemorySummaryRecord.summary existing) sc o
       :: rest)
    /\ engineCalls rest = [].
Proof.
  intros Hc Hread covered Hcov.
  assert (Hnew : newlyDropped existing dropped = drop covered dropped).
  { subst covered. destruct existing as [r|]; [apply newlyDropped_decode|].
    reflexivity. }
  assert (Hne : newlyDropped existing dropped <> []).
  { rewrite Hnew. intros Hnil. apply (f_equal length) in Hnil.
    rewrite length_drop in Hnil. simpl in Hnil. lia. }
  rewrite <- Hnew.
  destruct (summarize su
              (messagesTextOf JSON_stringify (newlyDropped existing dropped))
              (summaryOf existing) sc w1) as [o w2] eqn:Hsum.
  destruct o as [text|e|e].
  2,3: rewrite (buildSummaryMessage_engine_failed JSON_stringify
                  _ _ _ _ _ _ _ _ _ _ _ Hc Hread Hne Hsum) by discriminate;
       eexists _, _, _, _; (split; [reflexivity|]);
       unfold warnLine; destruct (Self.logger this); reflexivity.
  destruct (truthy_opt_string text) eqn:Htext.
  - destruct text as [t|]; [|discriminate]. simpl in Htext.
    destruct (upsertSummary st (upsertDataOf ctx dropped t) w2)
      as [u w3] eqn:Hup.
    rewrite (buildSummaryMessage_engine_ok JSON_stringify
               _ _ _ _ _ _ _ _ _ _ _ _ _ Hc Hread Hne Hsum Htext Hup).
    eexists _, _, _, _. split; [reflexivity|].
    destruct u; unfold warnLine; destruct (Self.logger this); reflexivity.
  - rewrite (buildSummaryMessage_engine_null JSON_stringify
               _ _ _ _ _ _ _ _ _ _ _ Hc Hread Hne Hsum Htext).
    eexists _, _, _, _. split; reflexivity.
Qed.

(** X23. The private wrappers add nothing but a debug line: under the
    configuration built from the input and the manager (no safety
    margin given, the manager's ratio and summary slot) [splitMessages]
    returns the result of [splitForThreeTierMemory] and
    [truncateMessages] the result of [truncateToTokenBudget], the
    outside world is untouched, and a configured logger gets one line
    when the split truncates, respectively when messages were left
    out. *)
Theorem X23_wrappers_are_the_utilities this input w :
  let history := BuildHistoryInput.allHistory input in
  let split := splitForThreeTierMemory history (splitConfigOf this input) in
  let truncated := truncateToTokenBudget history (budgetConfigOf this input) in
  splitMessages this history
    (BuildHistoryInput.contextWindow input)
    (BuildHistoryInput.maxOutputTokens input)
    (BuildHistoryInput.systemMessage input)
    (BuildHistoryInput.newUserMessage input) w
  = (Returned split, w,
     if wasTruncated split && Self.logger this then [EvLogDebug] else [])
  /\ truncateMessages this history
       (BuildHistoryInput.contextWindow input)
       (BuildHistoryInput.maxOutputTokens input)
       (BuildHistoryInput.systemMessage input)
       (BuildHistoryInput.newUserMessage input) w
     = (Returned truncated, w,
        if (length truncated <? length history)%nat && Self.logger this
        then [EvLogDebug] else []).
Proof.
  intros history split truncated. split.
  - apply splitMessages_run.
  - apply truncateMessages_run.
Qed.

(** X24. After a successful engine call the new summary is returned
    whether the write resolves or rejects (the rejection only reaches
    the logger); a write that throws at the call is caught with the
    rest, and the summary just obtained is not returned. In all three
    cases the write was attempted once, with the new text and the
    marker [length dropped + 1]. *)
Theorem X24_write_failure_and_the_summary
    this st su dropped ctx sc w
    (existing : option MemorySummaryRecord.t) w1 (t : string) w2 u w3 :
  consults this st su dropped ->
  readSummary st ctx w = (Resolved existing, w1) ->
  newlyDropped existing dropped <> [] ->
  summarize su
    (messagesTextOf JSON_stringify (newlyDropped existing dropped))
    (option_map MemorySummaryRecord.summary existing) sc w1
  = (Resolved (Some t), w2) ->
  t <> EmptyString ->
  upsertSummary st
    {| UpsertSummaryData.entityType := MemoryContext.entityType ctx;
       UpsertSummaryData.entityId := MemoryContext.entityId ctx;
       UpsertSummaryData.modelKey := MemoryContext.modelKey ctx;
       UpsertSummaryData.summary := t;
       UpsertSummaryData.summarizedThroughIndex :=
         Z.of_nat (length dropped) + 1 |} w2
  = (u, w3) ->
  exists evs,
    buildSummaryMessage JSON_stringify this dropped ctx sc w
    = (Returned
         match u with
         | Resolved _ | Rejected _ => Some (summaryMessageOf t)
         | Thrown _ => None
         end,
       w3, evs)
    /\ length (upsertCalls evs) = 1%nat
    /\ length (engineCalls evs) = 1%nat.
Proof.
  intros Hc Hread Hne Hsum Ht Hup.
  apply truthy_string_spec in Ht.
  rewrite (buildSummaryMessage_engine_ok JSON_stringify
             _ _ _ _ _ _ _ _ _ _ _ _ _ Hc Hread Hne Hsum Ht Hup).
  destruct u; eexists; (split; [reflexivity|]);
    unfold warnLine; destruct (Self.logger this); split; reflexivity.
Qed.

End OrchestratorMore.

(** X22. The messages handed to the engine are always a suffix of the
    dropped tier; and the marker written for a dropped tier, read back
    when the tier has grown at its end, leaves exactly the new messages
    to summarize. *)
Theorem X22_marker_append_only
    (context : MemoryContext.t) (dropped extra : list Message)
    (text : string)
    (existing : option MemorySummaryRecord.t) (r : MemorySummaryRecord.t) :
  ThreeTierMemoryManager.newlyDropped existing dropped `suffix_of` dropped
  /\ (MemorySummaryRecord.summarizedThroughIndex r
      = UpsertSummaryData.summarizedThroughIndex
          (upsertDataOf context dropped text) ->
      ThreeTierMemoryManager.newlyDropped (Some r) (dropped ++ extra) = extra).
Proof.
  split.
  - destruct existing as [r'|]; [|reflexivity].
    rewrite (newlyDropped_decode r' dropped). apply suffix_drop.
  - intros Hmarker. simpl in Hmarker.
    rewrite (newlyDropped_decode r (dropped ++ extra)), Hmarker.
    replace (Z.to_nat (Z.max (Z.of_nat (length dropped) + 1 - 1) 0))
      with (length dropped) by lia.
    apply drop_app_length.
Qed.

(* ================================================================== *)
(** ** The further properties on the scenarios *)
(* ================================================================== *)

(** The ten-message scenario without a memory context. *)
Lemma X16_no_summarization_no_calls_witness :
  exists messages evs,
    ThreeTierMemoryManager.buildHistory Stub.stringify
      (Stub.manager (Resolved (Some "S")) 100)
      (Stub.input Scenario.tenMessages 1000 200 None) None
      (Stub.storeWith "old" 3)
    = (Returned messages, Stub.storeWith "old" 3, evs)
    /\ collaboratorCalls evs = []
    /\ messages = take 2 Scenario.tenMessages ++ drop 7 Scenario.tenMessages.
Proof.
  destruct (X16_no_summarization_no_calls Stub.stringify
              (Stub.manager (Resolved (Some "S")) 100)
              (Stub.input Scenario.tenMessages 1000 200 None) None
              (Stub.storeWith "old" 3) (or_introl eq_refl))
    as (messages & evs & Hrun & Hcalls & Hshape).
  exists messages, evs. split; [exact Hrun|]. split; [exact Hcalls|].
  rewrite Hshape; [vm_compute; reflexivity| |].
  - vm_compute. reflexivity.
  - vm_compute. discriminate.
Defined.

(** The ten-message scenario: what is kept of the history costs at most
    the 600 tokens of the budget. *)
Lemma X18_shape_of_the_result_witness :
  exists head summary tail w' evs,
    ThreeTierMemoryManager.buildHistory Stub.stringify
      (Stub.manager (Resolved (Some "S")) 100)
      (Stub.input Scenario.tenMessages 1000 200 None)
      (Some Stub.context) ∅
    = (Returned (head ++ summary ++ tail ++ []), w', evs)
    /\ head `prefix_of` Scenario.tenMessages
    /\ tail `suffix_of` Scenario.tenMessages
    /\ sumTokens (head ++ tail) None <= 600.
Proof.
  destruct (X18_shape_of_the_result Stub.stringify
              (Stub.manager (Resolved (Some "S")) 100)
              (Stub.input Scenario.tenMessages 1000 200 None)
              (Some Stub.context) ∅)
    as (head & summary & tail & w' & evs & Hrun & Hpre & Hsuf & _ & _ & _
        & Hcost).
  exists head, summary, tail, w', evs.
  split; [exact Hrun|]. split; [exact Hpre|]. split; [exact Hsuf|].
  apply Hcost; simpl; lia.
Defined.

(** One message of 1250 tokens under a budget of -300 tokens. *)
Lemma X19_short_history_returned_whole_witness :
  ThreeTierMemoryManager.buildHistory Stub.stringify
    (Stub.manager (Resolved (Some "S")) 100)
    (Stub.input [Scenario.msg user 5000] 100 200 (Some "hi"))
    (Some Stub.context) ∅
  = (Returned ([Scenario.msg user 5000] ++ [userMessage "hi"]), ∅, []).
Proof.
  apply (X19_short_history_returned_whole Stub.stringify
           (Stub.manager (Resolved (Some "S")) 100)
           (Stub.input [Scenario.msg user 5000] 100 200 (Some "hi"))
           (Some Stub.context) ∅).
  simpl. lia.
Defined.

(** Five dropped messages, two of them covered by the stored record:
    the engine gets the text of the last three and the stored summary. *)
Lemma X20_engine_gets_only_the_new_messages_witness :
  exists sm w' o rest,
    ThreeTierMemoryManager.buildSummaryMessage Stub.stringify
      (Stub.manager (Resolved (Some "S")) 100) Stub.droppedFive
      Stub.context None (Stub.storeWith "old" 3)
    = (Returned sm, w',
       evRead Stub.context (Resolved (Some (Stub.storedRecord "old" 3)))
       :: EvSummarize
            (messagesTextOf Stub.stringify (drop 2 Stub.droppedFive))
            (Some "old") None o
       :: rest)
    /\ engineCalls rest = [].
Proof.
  apply (X20_engine_gets_only_the_new_messages Stub.stringify
           (Stub.manager (Resolved (Some "S")) 100) Stub.memoryStorage
           (Stub.constSummarizer (Resolved (Some "S"))) Stub.droppedFive
           Stub.context None (Stub.storeWith "old" 3)
           (Some (Stub.storedRecord "old" 3)) (Stub.storeWith "old" 3)
           (stub_consults Stub.memoryStorage (Resolved (Some "S")) 100)).
  - vm_compute. reflexivity.
  - simpl. lia.
Defined.

(** The marker written for the five dropped messages of the scenario,
    read back when two more messages were dropped. *)
Lemma X22_marker_append_only_witness :
  ThreeTierMemoryManager.newlyDropped (Some (Stub.storedRecord "S" 6))
    (Stub.droppedFive ++ [Scenario.msg assistant 400; Scenario.msg user 400])
  = [Scenario.msg assistant 400; Scenario.msg user 400].
Proof.
  apply (proj2 (X22_marker_append_only Stub.context Stub.droppedFive
                  [Scenario.msg assistant 400; Scenario.msg user 400]
                  "S" None (Stub.storedRecord "S" 6))).
  reflexivity.
Defined.

(** A write that rejects keeps the new summary, a write that throws
    loses it. *)
Lemma X24_write_failure_and_the_summary_witness :
  (exists evs,
      ThreeTierMemoryManager.buildSummaryMessage Stub.stringify
        (Stub.managerWith (Stub.failingWrites (Rejected tt))
           (Resolved (Some "S")) 100)
        Stub.droppedFive Stub.context None ∅
      = (Returned (Some (ThreeTierMemoryManager.summaryMessageOf "S")), ∅, evs)
      /\ length (upsertCalls evs) = 1%nat
      /\ length (engineCalls evs) = 1%nat)
  /\ (exists evs,
      ThreeTierMemoryManager.buildSummaryMessage Stub.stringify
        (Stub.managerWith (Stub.failingWrites (Thrown tt))
           (Resolved (Some "S")) 100)
        Stub.droppedFive Stub.context None ∅
      = (Returned None, ∅, evs)
      /\ length (upsertCalls evs) = 1%nat
      /\ length (engineCalls evs) = 1%nat).
Proof.
  split.
  - apply (X24_write_failure_and_the_summary Stub.stringify
             _ _ _ Stub.droppedFive Stub.context None ∅ None ∅ "S" ∅
             (Rejected tt) ∅
             (stub_consults (Stub.failingWrites (Rejected tt))
                (Resolved (Some "S")) 100)).
    + vm_compute. reflexivity.
    + vm_compute. discriminate.
    + reflexivity.
    + discriminate.
    + reflexivity.
  - apply (X24_write_failure_and_the_summary Stub.stringify
             _ _ _ Stub.droppedFive Stub.context None ∅ None ∅ "S" ∅
             (Thrown tt) ∅
             (stub_consults (Stub.failingWrites (Thrown tt))
                (Resolved (Some "S")) 100)).
    + vm_compute. reflexivity.
    + vm_compute. discriminate.
    + reflexivity.
    + discriminate.
    + reflexivity.
Defined.
